(** * Authentication core of vpnbot-backend

    A shallow embedding of
      - [src/shared/core/security/token.py]    (class [TokenManager]),
      - [src/shared/core/security/auth.py]     (class [AuthenticationManager]),
      - [src/shared/core/security/password.py] ([PasswordHasher],
        [BasePasswordValidator]),
    followed by the properties of the specification that concern them.

    Conventions.
      - A Python [str] is a list of Unicode code points ([list Z]).
      - A Python [dict] with string keys is a [gmap string value].
      - A raised exception is a value of [exn]; a call either returns or
        raises ([result]).
      - Calls to the collaborators (python-jose, the user service, the
        pydantic schemas) are recorded in a trace, so that "before X is
        invoked" can be stated.
      - [datetime.now(timezone.utc).timestamp()] truncated by [int] is the
        integer [now] handed to every definition that reads the clock.
      - [logger.debug]/[logger.warning] calls have no influence on what is
        returned or raised and are left out, and so is the [request]
        argument of [get_current_user], which is only logged.  An [await]
        is a plain call.
      - The messages of the password validator are kept as UTF-8
        literals. *)

From Stdlib Require Import ZArith Lia Ascii String.
From stdpp Require Import gmap strings list.

Local Open Scope Z_scope.

(** ** Python values *)

(** Code points of an ASCII literal. *)
Definition py (s : string) : list Z :=
  (λ a, Z.of_nat (nat_of_ascii a)) <$> list_ascii_of_string s.

(** The values that occur in a claim set: [None], [bool], [int], [str]. *)
Inductive value :=
| VNone
| VBool (b : bool)
| VInt (z : Z)
| VStr (s : list Z).

#[global] Instance value_eq_dec : EqDecision value.
Proof. solve_decision. Defined.

(** Python truthiness ([not v] is [negb (truthy v)]). *)
Definition truthy (v : value) : bool :=
  match v with
  | VNone => false
  | VBool b => b
  | VInt z => negb (z =? 0)
  | VStr s => match s with [] => false | _ :: _ => true end
  end.

(** [d.get(k)]: the value under [k], [None] when the key is absent. *)
Definition dict_get (d : gmap string value) (k : string) : value :=
  default VNone (d !! k).

(** ** Exceptions *)

Inductive exn :=
(* app.core.exceptions *)
| TokenMissingError
| TokenExpiredError
| TokenInvalidError
| InvalidCredentialsError
| WeakPasswordError (detail : string)
(* jose.exceptions *)
| ExpiredSignatureError
| JWTClaimsError
| JWTError
(* passlib.exc *)
| UnknownHashError
(* builtins *)
| TypeError
| ValueError
| OtherError (name : string).

#[global] Instance exn_eq_dec : EqDecision exn.
Proof. solve_decision. Defined.

(** [except ExpiredSignatureError]. *)
Definition isinstance_ExpiredSignatureError (e : exn) : bool :=
  match e with ExpiredSignatureError => true | _ => false end.

(** [except JWTError]: in python-jose [ExpiredSignatureError] and
    [JWTClaimsError] derive from [JWTError]. *)
Definition isinstance_JWTError (e : exn) : bool :=
  match e with
  | ExpiredSignatureError | JWTClaimsError | JWTError => true
  | _ => false
  end.

(** Modelled from the spec: the module [app.core.exceptions], which
    declares [TokenError] and its subclasses, is not among the sources.
    The specification names [TokenExpired], [TokenInvalid] and
    [TokenMissing] as the kinds that the resolver lets through unchanged;
    this predicate is [except TokenError] read as matching these three
    classes.  Whether [InvalidCredentialsError] derives from [TokenError]
    as well is not settled by the sources; what is said about an
    [InvalidCredentialsError] raised in the body of the resolver is said
    over [get_current_user_under] below, for every hierarchy. *)
Definition isinstance_TokenError (e : exn) : bool :=
  match e with
  | TokenMissingError | TokenExpiredError | TokenInvalidError => true
  | _ => false
  end.

(** [except passlib.exc.UnknownHashError]. *)
Definition isinstance_UnknownHashError (e : exn) : bool :=
  match e with UnknownHashError => true | _ => false end.

(** ** Results and traced computations *)

Inductive result (A : Type) :=
| Ok (a : A)
| Raise (e : exn).
Arguments Ok {A} a.
Arguments Raise {A} e.

Definition rbind {A B} (r : result A) (k : A → result B) : result B :=
  match r with
  | Ok a => k a
  | Raise e => Raise e
  end.

(** Calls that leave the component. *)
Inductive event :=
| EvJwtDecode (token : list Z)
| EvGetUser (identifier : value)
| EvModelValidate.

(** A computation: the collaborator calls it made, and how it ended. *)
Definition M (A : Type) : Type := list event * result A.

Definition ret {A} (a : A) : M A := ([], Ok a).
Definition raise {A} (e : exn) : M A := ([], Raise e).
Definition lift {A} (r : result A) : M A := ([], r).
Definition bind {A B} (m : M A) (k : A → M B) : M B :=
  match m with
  | (t, Ok a) => let '(t', r) := k a in (t ++ t', r)
  | (t, Raise e) => (t, Raise e)
  end.
(** A collaborator call: one event, then the collaborator's outcome. *)
Definition call {A} (ev : event) (r : result A) : M A := ([ev], r).
(** [try: body  except ...: handler]. *)
Definition try_except {A} (body : M A) (handler : exn → M A) : M A :=
  match body with
  | (t, Ok a) => (t, Ok a)
  | (t, Raise e) => let '(t', r) := handler e in (t ++ t', r)
  end.

Definition trace_of {A} (m : M A) : list event := m.1.
Definition outcome {A} (m : M A) : result A := m.2.

Notation "'let*' x ':=' m 'in' k" := (bind m (λ x, k))
  (at level 10, x name, m at level 100, k at level 200,
   format "'[' 'let*'  x  ':='  m  'in'  '/' k ']'").
Notation "'let+' x ':=' r 'in' k" := (rbind r (λ x, k))
  (at level 10, x name, r at level 100, k at level 200,
   format "'[' 'let+'  x  ':='  r  'in'  '/' k ']'").

(** ** Configuration and collaborators *)

(** [app.core.settings.settings], the fields read by the token code
    (defaults of [settings.py]: 1440 minutes, ["HS256"]). *)
Record Settings := {
  TOKEN_SECRET_KEY : list Z;
  TOKEN_ALGORITHM : list Z;
  TOKEN_EXPIRE_MINUTES : Z
}.

(** python-jose: [jwt.encode(claims, key, algorithm)] and
    [jwt.decode(token, key, algorithms)]; decoding reads the clock. *)
Record Jose := {
  jwt_encode : gmap string value → list Z → list Z → result (list Z);
  jwt_decode : Z → list Z → list Z → list (list Z) → result (gmap string value)
}.

(** ** token.py: TokenManager *)

Module TokenManager.

Definition generate_token (S : Settings) (J : Jose)
    (payload : gmap string value) : result (list Z) :=
  jwt_encode J payload (TOKEN_SECRET_KEY S) (TOKEN_ALGORITHM S).

Definition decode_token (S : Settings) (J : Jose) (now : Z)
    (token : list Z) : M (gmap string value) :=
  try_except
    (call (EvJwtDecode token)
       (jwt_decode J now token (TOKEN_SECRET_KEY S) [TOKEN_ALGORITHM S]))
    (λ error,
       if isinstance_ExpiredSignatureError error then raise TokenExpiredError
       else if isinstance_JWTError error then raise TokenInvalidError
       else raise error).

Definition get_token_expiration (S : Settings) : Z :=
  TOKEN_EXPIRE_MINUTES S * 60.

(** The user object handed to [create_payload] ([user: Any]); only these
    attributes are read. *)
Record User := {
  email : value;
  id : value;
  is_verified : value;
  role : value
}.

Definition create_payload (S : Settings) (now : Z) (user : User)
    : gmap string value :=
  let expires_at := now + get_token_expiration S in
  <["sub" := email user]>
  (<["expires_at" := VInt expires_at]>
  (<["user_id" := id user]>
  (<["is_verified" := is_verified user]>
  (<["role" := role user]> ∅)))).

(** [current_timestamp > expires_at]: an [int] compares with an [int] or
    a [bool]; with [None] or a [str] the comparison raises [TypeError]. *)
Definition is_expired (now : Z) (expires_at : value) : result bool :=
  let current_timestamp := now in
  match expires_at with
  | VInt z => Ok (z <? current_timestamp)
  | VBool b => Ok (Z.b2z b <? current_timestamp)
  | VNone | VStr _ => Raise TypeError
  end.

Definition verify_token (S : Settings) (J : Jose) (now : Z)
    (token : option (list Z)) : M (gmap string value) :=
  match token with
  | None | Some [] => raise TokenMissingError
  | Some (c :: s) => decode_token S J now (c :: s)
  end.

Definition validate_payload (now : Z) (payload : gmap string value)
    : result value :=
  let email := dict_get payload "sub" in
  let expires_at := dict_get payload "expires_at" in
  if negb (truthy email) then Raise InvalidCredentialsError
  else
    let+ expired := is_expired now expires_at in
    if expired then Raise TokenExpiredError
    else Ok email.

End TokenManager.

(** ** auth.py: AuthenticationManager *)

(** Modelled from the spec: the schemas of [app.schemas] are not among the
    sources.  The identity record has the fields [id], [username], [email],
    [role], [is_active], [is_verified]; [get_current_user] reads the same
    six fields of the validated user record. *)
Module UserCredentialsSchema.
Record t := {
  id : value;
  username : value;
  email : value;
  role : value;
  is_active : value;
  is_verified : value
}.
End UserCredentialsSchema.

Module CurrentUserSchema.
Record t := {
  id : value;
  username : value;
  email : value;
  role : value;
  is_active : value;
  is_verified : value
}.
End CurrentUserSchema.

(** The collaborators of the resolver: the injected [AuthService]
    ([get_user_by_identifier], which returns a user object or [None], or
    raises) and [UserCredentialsSchema.model_validate] (which returns the
    schema or raises). *)
Record Collaborators (UserModel : Type) := {
  get_user_by_identifier : value → result (option UserModel);
  model_validate : UserModel → result UserCredentialsSchema.t
}.
Arguments get_user_by_identifier {UserModel} _ _.
Arguments model_validate {UserModel} _ _.

Module AuthenticationManager.

(** The token delivered by [OAuth2PasswordBearer(auto_error=False)]:
    [None] without a bearer credential, the string otherwise. *)
Definition token_truthy (token : option (list Z)) : bool :=
  match token with
  | Some (_ :: _) => true
  | _ => false
  end.

(** The body of the [try] statement. *)
Definition resolve {UserModel} (S : Settings) (J : Jose)
    (C : Collaborators UserModel) (now : Z) (token : option (list Z))
    : M CurrentUserSchema.t :=
  let* payload := TokenManager.verify_token S J now token in
  let* user_email := lift (TokenManager.validate_payload now payload) in
  let* user := call (EvGetUser user_email)
                 (get_user_by_identifier C user_email) in
  match user with
  | None => raise InvalidCredentialsError
  | Some user =>
      let* user_schema := call EvModelValidate (model_validate C user) in
      let current_user :=
        {| CurrentUserSchema.id := UserCredentialsSchema.id user_schema;
           CurrentUserSchema.username :=
             UserCredentialsSchema.username user_schema;
           CurrentUserSchema.email := UserCredentialsSchema.email user_schema;
           CurrentUserSchema.role := UserCredentialsSchema.role user_schema;
           CurrentUserSchema.is_active :=
             UserCredentialsSchema.is_active user_schema;
           CurrentUserSchema.is_verified :=
             UserCredentialsSchema.is_verified user_schema |} in
      ret current_user
  end.

Definition get_current_user {UserModel} (S : Settings) (J : Jose)
    (C : Collaborators UserModel) (now : Z) (token : option (list Z))
    : M CurrentUserSchema.t :=
  if negb (token_truthy token) then raise TokenMissingError
  else
    try_except (resolve S J C now token)
      (λ e,
         if isinstance_TokenError e then raise e
         else raise TokenInvalidError).

End AuthenticationManager.

(** [get_current_user] with the class hierarchy left open:
    [is_token_error e] stands for [isinstance(e, TokenError)], and the rest
    is the code of [get_current_user].  With [isinstance_TokenError] for
    [is_token_error] it is [AuthenticationManager.get_current_user]. *)
Definition get_current_user_under {UserModel} (is_token_error : exn → bool)
    (S : Settings) (J : Jose) (C : Collaborators UserModel) (now : Z)
    (token : option (list Z)) : M CurrentUserSchema.t :=
  if negb (AuthenticationManager.token_truthy token)
  then raise TokenMissingError
  else
    try_except (AuthenticationManager.resolve S J C now token)
      (λ e,
         if is_token_error e then raise e
         else raise TokenInvalidError).

(** ** password.py *)

(** The tables of the Python runtime that the validator consults: the
    decimal digits matched by [\d] in a [str] pattern (category Nd) and
    [str.lower]. *)
Record UnicodeDB := {
  is_decimal : Z → bool;
  str_lower : list Z → list Z
}.

(** passlib's [CryptContext]: [verify(secret, hash)] returns a boolean or
    raises. *)
Record CryptContext := {
  ctx_verify : list Z → list Z → result bool
}.

Module PasswordHasher.

Definition verify (pwd_context : CryptContext)
    (hashed_password plain_password : list Z) : result bool :=
  match ctx_verify pwd_context plain_password hashed_password with
  | Ok b => Ok b
  | Raise e =>
      if isinstance_UnknownHashError e then Ok false
      else Raise e
  end.

End PasswordHasher.

(** [prefix] is an initial segment of [s]. *)
Fixpoint startswith (prefix s : list Z) : bool :=
  match prefix, s with
  | [], _ => true
  | _ :: _, [] => false
  | p :: prefix', c :: s' => (p =? c) && startswith prefix' s'
  end.

(** [needle in hay] on strings. *)
Fixpoint str_contains (needle hay : list Z) : bool :=
  match hay with
  | [] => startswith needle []
  | _ :: hay' => startswith needle hay || str_contains needle hay'
  end.

Definition in_range (lo hi c : Z) : bool := (lo <=? c) && (c <=? hi).

(** [re.search(cls, s)] for a pattern that is one character class. *)
Definition re_search (cls : Z → bool) (s : list Z) : bool := existsb cls s.

Module BasePasswordValidator.

(** One constructor per [errors.append]. *)
Inductive rule :=
| MinLength
| Uppercase
| Lowercase
| Digit
| SpecialChar
| CommonSequence
| ContainsUsername.

#[global] Instance rule_eq_dec : EqDecision rule.
Proof. solve_decision. Defined.

Definition message (r : rule) : string :=
  match r with
  | MinLength => "Пароль должен содержать минимум 8 символов"
  | Uppercase => "Пароль должен содержать хотя бы одну заглавную букву"
  | Lowercase => "Пароль должен содержать хотя бы одну строчную букву"
  | Digit => "Пароль должен содержать хотя бы одну цифру"
  | SpecialChar => "Пароль должен содержать хотя бы один специальный символ"
  | CommonSequence =>
      "Пароль не должен содержать распространенные последовательности"
  | ContainsUsername => "Пароль не должен содержать имя пользователя"
  end.

(** [[A-ZА-Я]]: U+0041..U+005A and U+0410..U+042F. *)
Definition class_upper (c : Z) : bool :=
  in_range 65 90 c || in_range 1040 1071 c.

(** [[a-zа-я]]: U+0061..U+007A and U+0430..U+044F. *)
Definition class_lower (c : Z) : bool :=
  in_range 97 122 c || in_range 1072 1103 c.

(** The class of the special-character pattern; 34 is the double quote. *)
Definition special_characters : list Z :=
  py "!@#$%^&*(),.?" ++ [34] ++ py ":{}|<>".

Definition class_special (c : Z) : bool :=
  existsb (Z.eqb c) special_characters.

Definition common_sequences : list (list Z) :=
  [py "12345"; py "qwerty"; py "password"; py "admin"; py "123456789";
   py "abc123"].

(** The list [errors] when the last check has been made. *)
Definition password_errors (U : UnicodeDB) (password : list Z)
    (username : option (list Z)) : list rule :=
  let errors := [] in
  let errors :=
    if Z.of_nat (length password) <? 8
    then errors ++ [MinLength] else errors in
  let errors :=
    if negb (re_search class_upper password)
    then errors ++ [Uppercase] else errors in
  let errors :=
    if negb (re_search class_lower password)
    then errors ++ [Lowercase] else errors in
  let errors :=
    if negb (re_search (is_decimal U) password)
    then errors ++ [Digit] else errors in
  let errors :=
    if negb (re_search class_special password)
    then errors ++ [SpecialChar] else errors in
  let errors :=
    if existsb (λ seq, str_contains seq (str_lower U password))
         common_sequences
    then errors ++ [CommonSequence] else errors in
  let errors :=
    match username with
    | Some (c :: u) =>
        let username := c :: u in
        if 3 <? Z.of_nat (length username) then
          if str_contains (str_lower U username) (str_lower U password)
          then errors ++ [ContainsUsername] else errors
        else errors
    | _ => errors
    end in
  errors.

(** ["; ".join(errors)]. *)
Definition join_errors (errors : list rule) : string :=
  String.concat "; " (message <$> errors).

Definition validate_password_strength (U : UnicodeDB) (password : list Z)
    (username : option (list Z)) : result (list Z) :=
  let errors := password_errors U password username in
  match errors with
  | _ :: _ => Raise (WeakPasswordError (join_errors errors))
  | [] => Ok password
  end.

End BasePasswordValidator.

(** ** What the specification assumes of python-jose *)

(** The registered claims that [jwt.decode] validates when present
    ([sub] is treated apart: it must be a string). *)
Definition registered_claims : list string :=
  ["exp"; "nbf"; "iat"; "aud"; "iss"; "jti"; "at_hash"].

(** A claim set on which the claim validation of [jwt.decode] has nothing
    to reject. *)
Definition jose_accepts (p : gmap string value) : Prop :=
  (∀ k, k ∈ registered_claims → p !! k = None) ∧
  (∀ v, p !! "sub" = Some v → ∃ s, v = VStr s).

(** The contract of the codec under the configured key and algorithm:
    encoding succeeds and yields a non-empty string; a token decodes to the
    claim set it was made from whenever claim validation has nothing to
    reject; expiry is signalled only for a claim set that carries [exp]. *)
Record JoseSpec (S : Settings) (J : Jose) : Prop := {
  jose_encode_total :
    ∀ p, ∃ tok,
      jwt_encode J p (TOKEN_SECRET_KEY S) (TOKEN_ALGORITHM S) = Ok tok;
  jose_token_nonempty :
    ∀ p tok,
      jwt_encode J p (TOKEN_SECRET_KEY S) (TOKEN_ALGORITHM S) = Ok tok →
      tok ≠ [];
  jose_roundtrip :
    ∀ p tok now,
      jwt_encode J p (TOKEN_SECRET_KEY S) (TOKEN_ALGORITHM S) = Ok tok →
      jose_accepts p →
      jwt_decode J now tok (TOKEN_SECRET_KEY S) [TOKEN_ALGORITHM S] = Ok p;
  jose_expired_only_exp :
    ∀ p tok now e,
      jwt_encode J p (TOKEN_SECRET_KEY S) (TOKEN_ALGORITHM S) = Ok tok →
      jwt_decode J now tok (TOKEN_SECRET_KEY S) [TOKEN_ALGORITHM S] = Raise e →
      e = ExpiredSignatureError ∨ e = TokenExpiredError →
      is_Some (p !! "exp")
}.

(** ** The rules of the password policy, one by one *)

(** Each rule of the policy as a test of its own on the code points of the
    password: the letter classes as ranges of code points ([A-Z] and the
    Russian capitals U+0410..U+042F, [a-z] and the Russian small letters
    U+0430..U+044F), the special characters and the deny-list as
    literals.  [password_errors] is compared with it below. *)
Definition violates (U : UnicodeDB) (password : list Z)
    (username : option (list Z)) (r : BasePasswordValidator.rule) : bool :=
  match r with
  | BasePasswordValidator.MinLength =>
      negb (8 <=? Z.of_nat (length password))
  | BasePasswordValidator.Uppercase =>
      negb (existsb
              (λ c, (65 <=? c) && (c <=? 90) || (1040 <=? c) && (c <=? 1071))
              password)
  | BasePasswordValidator.Lowercase =>
      negb (existsb
              (λ c, (97 <=? c) && (c <=? 122) || (1072 <=? c) && (c <=? 1103))
              password)
  | BasePasswordValidator.Digit =>
      negb (existsb (is_decimal U) password)
  | BasePasswordValidator.SpecialChar =>
      negb (existsb
              (λ c, existsb (Z.eqb c)
                      [33; 64; 35; 36; 37; 94; 38; 42; 40; 41; 44; 46; 63;
                       34; 58; 123; 125; 124; 60; 62])
              password)
  | BasePasswordValidator.CommonSequence =>
      existsb (λ seq, str_contains seq (str_lower U password))
        [py "12345"; py "qwerty"; py "password"; py "admin"; py "123456789";
         py "abc123"]
  | BasePasswordValidator.ContainsUsername =>
      match username with
      | None => false
      | Some u =>
          (3 <? Z.of_nat (length u)) &&
          str_contains (str_lower U u) (str_lower U password)
      end
  end.

Definition all_rules : list BasePasswordValidator.rule :=
  [BasePasswordValidator.MinLength; BasePasswordValidator.Uppercase;
   BasePasswordValidator.Lowercase; BasePasswordValidator.Digit;
   BasePasswordValidator.SpecialChar; BasePasswordValidator.CommonSequence;
   BasePasswordValidator.ContainsUsername].

(** Some uppercase letters (category Lu) of four scripts: Basic Latin,
    Latin-1 (U+00C0..U+00DE without the multiplication sign), Greek
    (U+0391..U+03A9 without the unassigned U+03A2) and Cyrillic
    (U+0400..U+042F). *)
Definition uppercase_letter (c : Z) : bool :=
  in_range 65 90 c
  || (in_range 192 222 c && negb (c =? 215))
  || (in_range 913 937 c && negb (c =? 930))
  || in_range 1024 1071 c.

(** ** Instances used to exercise the statements *)


Definition sample_settings : Settings :=
  {| TOKEN_SECRET_KEY := py "change-me";
     TOKEN_ALGORITHM := py "HS256";
     TOKEN_EXPIRE_MINUTES := 1440 |}.

#[global] Instance value_countable : Countable value.
Proof.
  refine (inj_countable'
    (λ v, match v with
          | VNone => inl (inl (inl ()))
          | VBool b => inl (inl (inr b))
          | VInt z => inl (inr z)
          | VStr s => inr s
          end)
    (λ x, match x with
          | inl (inl (inl ())) => VNone
          | inl (inl (inr b)) => VBool b
          | inl (inr z) => VInt z
          | inr s => VStr s
          end) _).
  by intros [].
Defined.

(** A codec that meets [JoseSpec]: the token is the number of the triple
    (key, algorithm, claim set), and decoding checks key and algorithm. *)
Definition sample_jose : Jose :=
  {| jwt_encode p key alg := Ok [Z.pos (encode (key, alg, p))];
     jwt_decode now tok key algs :=
       match tok with
       | [Z.pos n] =>
           match decode n with
           | Some (key', alg', p) =>
               if bool_decide (key' = key ∧ alg' ∈ algs) then Ok p
               else Raise JWTError
           | None => Raise JWTError
           end
       | _ => Raise JWTError
       end |}.

Definition ann : TokenManager.User :=
  {| TokenManager.email := VStr (py "ann@example.org");
     TokenManager.id := VInt 7;
     TokenManager.is_verified := VBool true;
     TokenManager.role := VStr (py "user") |}.

Definition ann_schema : UserCredentialsSchema.t :=
  {| UserCredentialsSchema.id := VInt 7;
     UserCredentialsSchema.username := VStr (py "ann");
     UserCredentialsSchema.email := VStr (py "ann@example.org");
     UserCredentialsSchema.role := VStr (py "user");
     UserCredentialsSchema.is_active := VBool true;
     UserCredentialsSchema.is_verified := VBool true |}.

(** A user service over user records that are already schemas: it knows
    the users of [db]. *)
Definition table_service (db : list (value * UserCredentialsSchema.t))
    : Collaborators UserCredentialsSchema.t :=
  {| get_user_by_identifier ident :=
       Ok ((λ r, r.2.2) <$> list_find (λ r, r.1 = ident) db);
     model_validate u := Ok u |}.

(** A user service that is out of order. *)
Definition failing_service : Collaborators UserCredentialsSchema.t :=
  {| get_user_by_identifier ident := Raise (OtherError "ConnectionError");
     model_validate u := Ok u |}.

(** The tables restricted to Basic Latin and the Russian alphabet. *)
Definition basic_unicode : UnicodeDB :=
  {| is_decimal := in_range 48 57;
     str_lower :=
       map (λ c, if BasePasswordValidator.class_upper c then c + 32 else c) |}.

(** A context in the manner of [CryptContext(schemes=["argon2"])]: a
    string without an Argon2 identifier is an unknown hash; one with the
    identifier goes to the handler, which may reject it as malformed. *)
Definition argon2_identifiers : list (list Z) :=
  [py "$argon2i$"; py "$argon2d$"; py "$argon2id$"].

Definition argon2_context (handler : list Z → list Z → result bool)
    : CryptContext :=
  {| ctx_verify secret hash :=
       if existsb (λ i, startswith i hash) argon2_identifiers
       then handler secret hash
       else Raise UnknownHashError |}.

(** A handler for which no string is a well-formed hash. *)
Definition rejecting_handler (secret hash : list Z) : result bool :=
  Raise ValueError.

(** ** paginations.py *)

(** A [dict] as the interpreter keeps it: the items in insertion order.
    Assigning to a key that is present replaces the value where it stands;
    a new key goes to the end. *)
Fixpoint assoc {K V} `{EqDecision K} (k : K) (d : list (K * V)) : option V :=
  match d with
  | [] => None
  | (k', v) :: d' => if decide (k' = k) then Some v else assoc k d'
  end.

Fixpoint dict_set {K V} `{EqDecision K} (k : K) (v : V) (d : list (K * V))
    : list (K * V) :=
  match d with
  | [] => [(k, v)]
  | (k', v') :: d' =>
      if decide (k' = k) then (k', v) :: d' else (k', v') :: dict_set k v d'
  end.

Module SortOption.
Record t := {
  field : list Z;
  description : string
}.
End SortOption.

(** What a class namespace holds under a name: a [SortOption], or
    something else (a method, the module name, the docstring, ...). *)
Inductive attr :=
| ASortOption (o : SortOption.t)
| AOther.

(** The classes the class methods of [BaseSortFields] run on:
    [BaseSortFields] itself and the classes derived from it by single
    inheritance, each with its own namespace ([__dict__]) in definition
    order. *)
Inductive sort_fields_class :=
| BaseSortFields
| Derived (own : list (string * attr)) (base : sort_fields_class).

Module BaseSortFields.

Definition CREATED_AT : SortOption.t :=
  {| SortOption.field := py "created_at";
     SortOption.description := "Сортировка по дате создания" |}.

Definition UPDATED_AT : SortOption.t :=
  {| SortOption.field := py "updated_at";
     SortOption.description := "Сортировка по дате обновления" |}.

Definition namespace : list (string * attr) :=
  [("__module__", AOther); ("__doc__", AOther);
   ("CREATED_AT", ASortOption CREATED_AT);
   ("UPDATED_AT", ASortOption UPDATED_AT);
   ("get_default", AOther); ("get_all_fields", AOther);
   ("get_field_values", AOther); ("is_valid_field", AOther);
   ("get_field_or_default", AOther);
   ("__dict__", AOther); ("__weakref__", AOther)].

(** [cls.__mro__] as the list of the namespaces, [cls] first.  The last
    class of every MRO is [object]; its namespace holds no [SortOption] and
    is left out. *)
Fixpoint mro (cls : sort_fields_class) : list (list (string * attr)) :=
  match cls with
  | BaseSortFields => [namespace]
  | Derived own base => own :: mro base
  end.

(** [getattr(cls, name)]: the first namespace of the MRO that has the
    name. *)
Fixpoint getattr (cls : sort_fields_class) (name : string) : option attr :=
  match cls with
  | BaseSortFields => assoc name namespace
  | Derived own base =>
      match assoc name own with
      | Some a => Some a
      | None => getattr base name
      end
  end.

Definition get_default (cls : sort_fields_class) : result attr :=
  match getattr cls "UPDATED_AT" with
  | Some a => Ok a
  | None => Raise (OtherError "AttributeError")
  end.

(** The body of the inner loop. *)
Definition add_field (fields : list (string * SortOption.t))
    (item : string * attr) : list (string * SortOption.t) :=
  match item with
  | (name, ASortOption value) =>
      if negb (String.prefix "_" name) then dict_set name value fields
      else fields
  | (_, AOther) => fields
  end.

Definition get_all_fields (cls : sort_fields_class)
    : list (string * SortOption.t) :=
  fold_left (λ fields base_cls, fold_left add_field base_cls fields)
    (mro cls) [].

Definition get_field_values (cls : sort_fields_class) : list (list Z) :=
  (λ item, SortOption.field item.2) <$> get_all_fields cls.

Definition is_valid_field (cls : sort_fields_class) (field : list Z) : bool :=
  bool_decide (field ∈ get_field_values cls).

Definition get_field_or_default (cls : sort_fields_class) (field : list Z)
    : result (list Z) :=
  if is_valid_field cls field then Ok field
  else
    let+ default := get_default cls in
    match default with
    | ASortOption o => Ok (SortOption.field o)
    | AOther => Raise (OtherError "AttributeError")
    end.

End BaseSortFields.

Definition SortFields : sort_fields_class :=
  Derived [("__module__", AOther); ("__doc__", AOther)] BaseSortFields.

Definition WorkspaceSortFields : sort_fields_class :=
  Derived
    [("__module__", AOther); ("__doc__", AOther);
     ("NAME",
      ASortOption
        {| SortOption.field := py "name";
           SortOption.description :=
             "Сортировка по имени рабочего пространства" |})]
    BaseSortFields.

Definition UserSortFields : sort_fields_class :=
  Derived
    [("__module__", AOther); ("__doc__", AOther);
     ("USERNAME",
      ASortOption
        {| SortOption.field := py "username";
           SortOption.description := "Сортировка по имени пользователя" |})]
    BaseSortFields.

Module SortFieldRegistry.

Definition _registry : list (list Z * sort_fields_class) :=
  [(py "Workspace", WorkspaceSortFields);
   (py "User", UserSortFields);
   (py "default", SortFields)].

(** [cls._registry.get(entity_name, cls._registry["default"])]; the
    default is looked up before the call. *)
Definition get_sort_field_class (entity_name : list Z)
    : result sort_fields_class :=
  match assoc (py "default") _registry with
  | None => Raise (OtherError "KeyError")
  | Some default =>
      match assoc entity_name _registry with
      | Some cls => Ok cls
      | None => Ok default
      end
  end.

End SortFieldRegistry.

Module PaginationParams.

Record t := {
  skip : Z;
  limit : Z;
  sort_by : list Z;
  sort_desc : bool
}.

(** [__init__]. *)
Definition init (skip limit : Z) (sort_by : list Z) (sort_desc : bool)
    (entity_name : list Z) : result t :=
  let+ sort_field_class :=
    SortFieldRegistry.get_sort_field_class entity_name in
  let+ sort_by := BaseSortFields.get_field_or_default sort_field_class sort_by in
  Ok {| skip := skip; limit := limit; sort_by := sort_by;
        sort_desc := sort_desc |}.

(** [self.skip // self.limit + 1]; [//] rounds towards minus infinity, as
    [Z.div] does, and fails on a zero divisor. *)
Definition page (self : t) : result Z :=
  if limit self =? 0 then Raise (OtherError "ZeroDivisionError")
  else Ok (skip self / limit self + 1).

End PaginationParams.

(** ** The middlewares of [app.core.middlewares] *)

(** What leaves a middleware or the application below it as an exception:
    a [BaseAPIException] (or a subclass), another [HTTPException], or an
    exception that is not an [HTTPException].  All of them are
    [Exception]s. *)
Inductive raised :=
| RaisedAPI (status_code : Z) (detail : list Z)
| RaisedHTTP (status_code : Z) (detail : value)
| RaisedOther (e : exn).

Inductive res (A : Type) :=
| Done (a : A)
| Fail (e : raised).
Arguments Done {A} a.
Arguments Fail {A} e.

(** The user object of the activity store; [dispatch] reads its [id]. *)
Record cached_user := {
  user_id : value
}.

(** Calls that leave the middlewares. *)
Inductive mw_event :=
| RedisFromUrl
| UpdateLastActivity (token : list Z)
| GetUserByToken (token : list Z)
| SetOnlineStatus (id : value) (online : bool)
| RedisClientClose
| HTTPBasicCall
| Endpoint.

#[global] Instance mw_event_eq_dec : EqDecision mw_event.
Proof. solve_decision. Defined.

(** A computation of a middleware: the calls it made and how it ended. *)
Definition MW (A : Type) : Type := list mw_event * res A.

Definition mw_ret {A} (a : A) : MW A := ([], Done a).
Definition mw_raise {A} (e : raised) : MW A := ([], Fail e).
Definition mw_bind {A B} (m : MW A) (k : A → MW B) : MW B :=
  match m with
  | (t, Done a) => let '(t', r) := k a in (t ++ t', r)
  | (t, Fail e) => (t, Fail e)
  end.
Definition mw_call {A} (ev : mw_event) (r : res A) : MW A := ([ev], r).
(** [try: body  except ...: handler]; a handler that does not match
    raises the exception again. *)
Definition mw_try {A} (body : MW A) (handler : raised → MW A) : MW A :=
  match body with
  | (t, Done a) => (t, Done a)
  | (t, Fail e) => let '(t', r) := handler e in (t ++ t', r)
  end.
(** [try: body  finally: final]: [final] runs in every case, and an
    exception of [final] replaces the outcome of [body]. *)
Definition mw_finally {A} (body : MW A) (final : MW unit) : MW A :=
  match body, final with
  | (t, r), (t', Done _) => (t ++ t', r)
  | (t, _), (t', Fail e) => (t ++ t', Fail e)
  end.

Notation "'let!' x ':=' m 'in' k" := (mw_bind m (λ x, k))
  (at level 10, x name, m at level 100, k at level 200,
   format "'[' 'let!'  x  ':='  m  'in'  '/' k ']'").

(** The responses: the one of the application below, left abstract, a
    [JSONResponse] with the content [{"detail": ...}], or a plain
    [Response] with a status code and headers. *)
Inductive response (R : Type) :=
| AppResponse (r : R)
| JSONResponse (status_code : Z) (detail : list Z)
| PlainResponse (status_code : Z) (headers : list (list Z * list Z)).
Arguments AppResponse {R} r.
Arguments JSONResponse {R} status_code detail.
Arguments PlainResponse {R} status_code headers.

(** [s.split(sep)] for a separator of one code point. *)
Fixpoint split_on (sep : Z) (s : list Z) : list (list Z) :=
  match s with
  | [] => [[]]
  | c :: s' =>
      if c =? sep then [] :: split_on sep s'
      else
        match split_on sep s' with
        | w :: ws => (c :: w) :: ws
        | [] => [[c]]
        end
  end.

(** The calls to the activity store. *)
Definition storage_events (ev : mw_event) : Prop :=
  match ev with
  | UpdateLastActivity _ | GetUserByToken _ | SetOnlineStatus _ _ => True
  | _ => False
  end.

Module ActivityMiddleware.

(** The Redis connection and the [AuthRedisDataManager] built on it. *)
Record Redis := {
  from_url : res unit;
  update_last_activity : list Z → res unit;
  get_user_by_token : list Z → res (option cached_user);
  set_online_status : value → bool → res unit;
  client_close : res unit
}.

(** [token[:5] + "..." + token[-5:] if len(token) > 10 else "***"]. *)
Definition masked_token (token : list Z) : list Z :=
  if 10 <? Z.of_nat (length token)
  then take 5 token ++ py "..." ++ drop (length token - 5) token
  else py "***".

(** [auth_header.split(" ")[1]]. *)
Definition bearer_token (auth_header : list Z) : res (list Z) :=
  match split_on 32 auth_header !! 1%nat with
  | Some token => Done token
  | None => Fail (RaisedOther (OtherError "IndexError"))
  end.

(** [dispatch]; [authorization] is the header of the request, if it has
    one, and [call_next] is what the rest of the stack does with the
    request.  The calls of the logger are not part of the trace. *)
Definition dispatch {R} (TOKEN_TYPE : list Z) (redis : Redis)
    (authorization : option (list Z)) (call_next : MW (response R))
    : MW (response R) :=
  let auth_header := default [] authorization in
  let! _ :=
    if startswith (TOKEN_TYPE ++ py " ") auth_header then
      let! token := ([], bearer_token auth_header) in
      let! _ := mw_call RedisFromUrl (from_url redis) in
      mw_finally
        (mw_try
           (let! _ := mw_call (UpdateLastActivity token)
                        (update_last_activity redis token) in
            let! user := mw_call (GetUserByToken token)
                           (get_user_by_token redis token) in
            match user with
            | Some user =>
                if truthy (user_id user) then
                  mw_call (SetOnlineStatus (user_id user) true)
                    (set_online_status redis (user_id user) true)
                else mw_ret tt
            | None => mw_ret tt
            end)
           (λ e, mw_ret tt))
        (mw_call RedisClientClose (client_close redis))
    else mw_ret tt in
  let! response := call_next in
  mw_ret response.

End ActivityMiddleware.

Module LoggingMiddleware.

(** [dispatch]; [py_str] is [str] on the detail of an [HTTPException]. *)
Definition dispatch {R} (py_str : value → list Z)
    (call_next : MW (response R)) : MW (response R) :=
  mw_try
    (let! response := call_next in
     mw_ret response)
    (λ e,
       match e with
       | RaisedAPI status_code detail =>
           mw_ret (JSONResponse status_code detail)
       | RaisedHTTP status_code detail =>
           mw_ret (JSONResponse status_code (py_str detail))
       | RaisedOther _ => mw_raise e
       end).

End LoggingMiddleware.

Module DocsAuthMiddleware.

Record DocsSettings := {
  DOCS_ACCESS : bool;
  DOCS_USERNAME : list Z;
  DOCS_PASSWORD : list Z
}.

(** The parts of the request that [dispatch] reads; [client_host] is
    [None] when the request has no client. *)
Record Request := {
  path : list Z;
  client_host : option (list Z);
  authorization : option (list Z)
}.

Definition docs_paths : list (list Z) :=
  [py "/docs"; py "/redoc"; py "/openapi.json"].

Definition challenge {R} : response R :=
  PlainResponse 401 [(py "WWW-Authenticate", py "Basic")].

Section Dispatch.
(** The clock values of [time.time()], and the test
    [current_time - timestamp < 3600] on them. *)
Context {Clock : Type} (within_hour : Clock → Clock → bool).
(** [fastapi.security.HTTPBasic]: the credentials of the request, or an
    exception. *)
Context (security : Request → res (list Z * list Z)).
Context {R : Type}.

(** The handler of the [try] statement. *)
Definition handler (e : raised) : MW (response R) :=
  match e with
  | RaisedAPI _ _ | RaisedHTTP _ _ => mw_ret challenge
  | RaisedOther _ => mw_raise e
  end.

(** [dispatch] from the read of the [Authorization] header on, for a
    client without a fresh entry in the cache. *)
Definition check_credentials (settings : DocsSettings)
    (auth_cache : gmap (list Z) Clock) (current_time : Clock)
    (request : Request) (client_ip : list Z) (call_next : MW (response R))
    : gmap (list Z) Clock * MW (response R) :=
  match authorization request with
  | None | Some [] => (auth_cache, mw_ret challenge)
  | Some (_ :: _) =>
      match security request with
      | Done (username, password) =>
          if bool_decide (username = DOCS_USERNAME settings)
             && bool_decide (password = DOCS_PASSWORD settings)
          then
            (<[client_ip := current_time]> auth_cache,
             mw_try
               (let! _ := mw_call HTTPBasicCall (Done tt) in
                call_next)
               handler)
          else
            (auth_cache,
             mw_try
               (let! _ := mw_call HTTPBasicCall (Done tt) in
                mw_raise (RaisedHTTP 401 VNone))
               handler)
      | Fail e =>
          (auth_cache, mw_try (mw_call HTTPBasicCall (Fail e)) handler)
      end
  end.

(** [dispatch] with the cache of the middleware object before the call;
    it returns the cache after the call beside the computation. *)
Definition dispatch (settings : DocsSettings)
    (auth_cache : gmap (list Z) Clock) (current_time : Clock)
    (request : Request) (call_next : MW (response R))
    : gmap (list Z) Clock * MW (response R) :=
  if bool_decide (path request ∈ docs_paths) then
    if negb (DOCS_ACCESS settings) then
      (auth_cache, mw_raise (RaisedHTTP 403 (VStr (py "Docs disabled"))))
    else
      match client_host request with
      | None =>
          (auth_cache, mw_raise (RaisedOther (OtherError "AttributeError")))
      | Some client_ip =>
          match auth_cache !! client_ip with
          | Some timestamp =>
              if within_hour current_time timestamp then
                (auth_cache, call_next)
              else
                check_credentials settings auth_cache current_time request
                  client_ip call_next
          | None =>
              check_credentials settings auth_cache current_time request
                client_ip call_next
          end
      end
  else (auth_cache, call_next).

End Dispatch.

End DocsAuthMiddleware.
(** ** main.py: the middleware stack *)

Module Application.

Definition middleware (R : Type) : Type := MW (response R) → MW (response R).

(** Starlette's [add_middleware] puts the class in front of the list of
    middlewares, and the stack is built from the end of that list: the
    class added last is the outermost. *)
Definition add_middleware {R} (mw : middleware R)
    (user_middleware : list (middleware R)) : list (middleware R) :=
  mw :: user_middleware.

Definition build_middleware_stack {R} (user_middleware : list (middleware R))
    (app : MW (response R)) : MW (response R) :=
  foldr (λ mw inner, mw inner) app user_middleware.

(** The stack of [create_application] for one request, from the three
    middlewares of this package; [CORSMiddleware], added after them, is
    around it. *)
Definition create_application {R} (activity logging : middleware R)
    (docs_auth : middleware R) (app : MW (response R)) : MW (response R) :=
  let user_middleware := [] in
  let user_middleware := add_middleware activity user_middleware in
  let user_middleware := add_middleware logging user_middleware in
  let user_middleware := add_middleware docs_auth user_middleware in
  build_middleware_stack user_middleware app.

(** The stack at work on one request. *)
Definition handle_request {Clock R : Type}
    (within_hour : Clock → Clock → bool)
    (security : DocsAuthMiddleware.Request → res (list Z * list Z))
    (settings : DocsAuthMiddleware.DocsSettings)
    (auth_cache : gmap (list Z) Clock) (current_time : Clock)
    (TOKEN_TYPE : list Z) (redis : ActivityMiddleware.Redis)
    (py_str : value → list Z) (request : DocsAuthMiddleware.Request)
    (app : MW (response R)) : MW (response R) :=
  create_application
    (ActivityMiddleware.dispatch TOKEN_TYPE redis
       (DocsAuthMiddleware.authorization request))
    (LoggingMiddleware.dispatch py_str)
    (λ call_next,
       (DocsAuthMiddleware.dispatch within_hour security settings auth_cache
          current_time request call_next).2)
    app.

End Application.
(** ** Instances for the middlewares *)

(** A store in which every token belongs to user 7. *)
Definition sample_redis : ActivityMiddleware.Redis :=
  {| ActivityMiddleware.from_url := Done tt;
     ActivityMiddleware.update_last_activity _ := Done tt;
     ActivityMiddleware.get_user_by_token _ :=
       Done (Some {| user_id := VInt 7 |});
     ActivityMiddleware.set_online_status _ _ := Done tt;
     ActivityMiddleware.client_close := Done tt |}.

(** A Redis that cannot be reached. *)
Definition unreachable_redis : ActivityMiddleware.Redis :=
  {| ActivityMiddleware.from_url :=
       Fail (RaisedOther (OtherError "ConnectionError"));
     ActivityMiddleware.update_last_activity _ := Done tt;
     ActivityMiddleware.get_user_by_token _ := Done None;
     ActivityMiddleware.set_online_status _ _ := Done tt;
     ActivityMiddleware.client_close := Done tt |}.

(** An application that answers every request. *)
Definition sample_app : MW (response Z) :=
  mw_call Endpoint (Done (AppResponse 200)).

(** An application whose endpoint raises a [ValueNotFoundError]-like
    exception. *)
Definition failing_app : MW (response Z) :=
  mw_call Endpoint (Fail (RaisedAPI 404 (py "not found"))).

Definition sample_docs_settings : DocsAuthMiddleware.DocsSettings :=
  {| DocsAuthMiddleware.DOCS_ACCESS := true;
     DocsAuthMiddleware.DOCS_USERNAME := py "admin";
     DocsAuthMiddleware.DOCS_PASSWORD := py "s3cret" |}.

Definition closed_docs_settings : DocsAuthMiddleware.DocsSettings :=
  {| DocsAuthMiddleware.DOCS_ACCESS := false;
     DocsAuthMiddleware.DOCS_USERNAME := py "admin";
     DocsAuthMiddleware.DOCS_PASSWORD := py "s3cret" |}.

(** Clock values in whole seconds. *)
Definition sample_within_hour (current_time timestamp : Z) : bool :=
  current_time - timestamp <? 3600.

(** A stand-in for [HTTPBasic]: the header is taken to be
    ["user:password"] in the clear. *)
Definition sample_security (request : DocsAuthMiddleware.Request)
    : res (list Z * list Z) :=
  match split_on 58 (default [] (DocsAuthMiddleware.authorization request))
  with
  | [username; password] => Done (username, password)
  | _ => Fail (RaisedHTTP 401 (VStr (py "Invalid authentication credentials")))
  end.

Definition docs_request (authorization : option (list Z))
    : DocsAuthMiddleware.Request :=
  {| DocsAuthMiddleware.path := py "/docs";
     DocsAuthMiddleware.client_host := Some (py "10.0.0.1");
     DocsAuthMiddleware.authorization := authorization |}.

(** [str] on the values that occur as details here. *)
Definition sample_py_str (v : value) : list Z :=
  match v with
  | VStr s => s
  | VNone => py "None"
  | VBool true => py "True"
  | VBool false => py "False"
  | VInt _ => py "0"
  end.

(** ** logging/setup.py: clearing the old handlers *)

Module SetupLogging.

Section Handlers.
(** The handler objects; they compare by identity. *)
Context {Handler : Type} `{EqDecision Handler}.

(** [list.remove(x)]: the first occurrence goes. *)
Fixpoint list_remove (x : Handler) (l : list Handler) : list Handler :=
  match l with
  | [] => []
  | y :: l' => if decide (y = x) then l' else y :: list_remove x l'
  end.

(** [Logger.removeHandler]: [if hdlr in self.handlers:
    self.handlers.remove(hdlr)]. *)
Definition removeHandler (hdlr : Handler) (handlers : list Handler)
    : list Handler :=
  if decide (hdlr ∈ handlers) then list_remove hdlr handlers else handlers.

(** [for handler in root.handlers: root.removeHandler(handler)].  The
    iterator of a list is an index into the list as it is at the moment;
    the loop ends when the index is past the end.  [fuel] bounds the number
    of rounds. *)
Fixpoint clear_loop (fuel index : nat) (handlers : list Handler)
    : list Handler :=
  match fuel with
  | O => handlers
  | S fuel =>
      match handlers !! index with
      | None => handlers
      | Some handler =>
          clear_loop fuel (S index) (removeHandler handler handlers)
      end
  end.

(** The handlers of the root logger after the clearing at the head of
    [setup_logging]. *)
Definition clear_handlers (handlers : list Handler) : list Handler :=
  match handlers with
  | [] => []
  | _ :: _ => clear_loop (length handlers) 0 handlers
  end.

(** Every second element, from the second on. *)
Fixpoint odd_indexed (l : list Handler) : list Handler :=
  match l with
  | _ :: b :: r => b :: odd_indexed r
  | _ => []
  end.
End Handlers.

End SetupLogging.

(** ** storage/base.py: BaseS3Storage *)

(** The exceptions of the storage code: botocore's [ClientError] with the
    error code of the response, the [ValueError] and [RuntimeError] that the
    methods raise [from] another exception, with the fixed part of their
    message, and the rest. *)
Inductive s3_error :=
| ClientError (code : list Z)
| S3ValueError (message : string) (cause : s3_error)
| S3RuntimeError (message : string) (cause : s3_error)
| S3OtherError (name : string).

Inductive s3_result (A : Type) :=
| S3Ok (a : A)
| S3Raise (e : s3_error).
Arguments S3Ok {A} a.
Arguments S3Raise {A} e.

(** What is sent as the body of an object: [bytes] or, Python not
    checking the annotation, a [str]. *)
Inductive body :=
| Bytes (b : list Z)
| Str (s : list Z).

Record UploadFile := {
  filename : list Z;
  content_type : list Z;
  content : list Z
}.

(** Calls that leave the storage code, with their arguments. *)
Inductive s3_call :=
| HeadObject (Bucket Key : list Z)
| PutObject (Bucket Key : list Z) (Body : body) (ContentType : list Z)
| FileRead (file : UploadFile)
| Uuid4.

(** The outside world: what a call returns may depend on everything that
    was called before. *)
Record S3World := {
  head_object : list s3_call → list Z → list Z → s3_result unit;
  put_object :
    list s3_call → list Z → list Z → body → list Z → s3_result unit;
  file_read : list s3_call → UploadFile → s3_result (list Z);
  uuid4 : list s3_call → list Z
}.

(** A computation: from the calls made so far to the calls made so far
    afterwards and the outcome. *)
Definition S3 (A : Type) : Type := list s3_call → list s3_call * s3_result A.

Definition s3_ret {A} (a : A) : S3 A := λ h, (h, S3Ok a).
Definition s3_raise {A} (e : s3_error) : S3 A := λ h, (h, S3Raise e).
Definition s3_bind {A B} (m : S3 A) (k : A → S3 B) : S3 B :=
  λ h,
    match m h with
    | (h', S3Ok a) => k a h'
    | (h', S3Raise e) => (h', S3Raise e)
    end.
(** A call to the outside. *)
Definition s3_ext {A} (ev : s3_call) (answer : list s3_call → s3_result A)
    : S3 A :=
  λ h, (h ++ [ev], answer h).
Definition s3_try {A} (body : S3 A) (handler : s3_error → S3 A) : S3 A :=
  λ h,
    match body h with
    | (h', S3Ok a) => (h', S3Ok a)
    | (h', S3Raise e) => handler e h'
    end.

Notation "'let^' x ':=' m 'in' k" := (s3_bind m (λ x, k))
  (at level 10, x name, m at level 100, k at level 200,
   format "'[' 'let^'  x  ':='  m  'in'  '/' k ']'").

Module BaseS3Storage.

(** The attributes of [self] read by the methods. *)
Record t := {
  endpoint : list Z;
  bucket_name : list Z
}.

Section Methods.
Context (self : t) (W : S3World).

Definition file_exists (file_key : list Z) (bucket : option (list Z))
    : S3 bool :=
  let bucket := default (bucket_name self) bucket in
  s3_try
    (let^ _ := s3_ext (HeadObject bucket file_key)
                 (λ h, head_object W h bucket file_key) in
     s3_ret true)
    (λ error,
       match error with
       | ClientError code =>
           if bool_decide (code = py "404") then s3_ret false
           else
             s3_raise
               (S3ValueError "Ошибка при проверке наличия файла" error)
       | _ => s3_raise error
       end).

Definition get_link_file (file_key : list Z) (bucket : option (list Z))
    : S3 (list Z) :=
  let bucket := default (bucket_name self) bucket in
  s3_try
    (let^ _ := file_exists file_key (Some bucket) in
     s3_ret (endpoint self ++ py "/" ++ bucket ++ py "/" ++ file_key))
    (λ error,
       match error with
       | ClientError _ =>
           s3_raise
             (S3ValueError "Ошибка при получении ссылки на файл" error)
       | _ =>
           s3_raise
             (S3RuntimeError "Ошибка при получении ссылки на файл" error)
       end).

Definition upload_file_from_content (file : UploadFile) (file_key : list Z)
    (file_content : option body) (bucket : option (list Z)) : S3 (list Z) :=
  let bucket := default (bucket_name self) bucket in
  let^ file_content :=
    match file_content with
    | None =>
        let^ data := s3_ext (FileRead file) (λ h, file_read W h file) in
        s3_ret (Bytes data)
    | Some file_content => s3_ret file_content
    end in
  s3_try
    (let^ uuid := s3_ext Uuid4 (λ h, S3Ok (uuid4 W h)) in
     let unique_filename := uuid ++ py "_" ++ filename file in
     let file_key :=
       match file_key with
       | _ :: _ => file_key ++ py "/" ++ unique_filename
       | [] => unique_filename
       end in
     let^ response :=
       s3_ext (PutObject bucket file_key file_content (content_type file))
         (λ h, put_object W h bucket file_key file_content
                 (content_type file)) in
     get_link_file file_key (Some bucket))
    (λ error,
       match error with
       | ClientError _ =>
           s3_raise (S3ValueError "Ошибка при загрузке файла" error)
       | _ => s3_raise (S3RuntimeError "Ошибка при загрузке файла" error)
       end).

(** The [for] loop of [upload_multiple_files_from_content] over the
    zipped lists; the third positional argument of the call is
    [file_content]. *)
Fixpoint upload_each (items : list (UploadFile * list Z)) (bucket : list Z)
    (uploaded_files : list (list Z)) : S3 (list (list Z)) :=
  match items with
  | [] => s3_ret uploaded_files
  | (file, file_key) :: items =>
      let^ _ :=
        upload_file_from_content file file_key (Some (Str bucket)) None in
      upload_each items bucket (uploaded_files ++ [file_key])
  end.

Definition upload_multiple_files_from_content (files : list UploadFile)
    (file_keys : list (list Z)) (bucket : option (list Z))
    : S3 (list (list Z)) :=
  let bucket := default (bucket_name self) bucket in
  let uploaded_files := [] in
  s3_try
    (upload_each (zip files file_keys) bucket uploaded_files)
    (λ error,
       match error with
       | ClientError _ =>
           s3_raise (S3ValueError "Ошибка при загрузке файлов" error)
       | _ => s3_raise (S3RuntimeError "Ошибка при загрузке файлов" error)
       end).

End Methods.

End BaseS3Storage.

(** What [upload_multiple_files_from_content] may add to the calls: no
    read of a file, and [put_object] only into [default_bucket] and with
    the string [sent] as body. *)
Definition upload_call_shape (default_bucket sent : list Z) (ev : s3_call)
    : Prop :=
  match ev with
  | PutObject Bucket _ Body _ => Bucket = default_bucket ∧ Body = Str sent
  | FileRead _ => False
  | HeadObject _ _ | Uuid4 => True
  end.

(** ** Instances for the storage code *)

(** A store that takes every object and knows the objects put before. *)
Definition sample_s3_world : S3World :=
  {| head_object h Bucket Key :=
       if existsb (λ ev, match ev with
                         | PutObject b k _ _ =>
                             bool_decide (b = Bucket ∧ k = Key)
                         | _ => false
                         end) h
       then S3Ok tt else S3Raise (ClientError (py "404"));
     put_object _ _ _ _ _ := S3Ok tt;
     file_read _ file := S3Ok (content file);
     uuid4 h := py "uuid-" ++ replicate (length h) 49 |}.

Definition sample_storage : BaseS3Storage.t :=
  {| BaseS3Storage.endpoint := py "https://s3.example.org";
     BaseS3Storage.bucket_name := py "media" |}.

(** * Properties *)

(** ** The claim set built by [create_payload] *)

Section Payload.
Context (S : Settings) (now : Z) (user : TokenManager.User).

Lemma create_payload_sub :
  dict_get (TokenManager.create_payload S now user) "sub"
  = TokenManager.email user.
Proof.
  unfold dict_get, TokenManager.create_payload.
  by rewrite lookup_insert_eq.
Qed.

Lemma create_payload_expires_at :
  dict_get (TokenManager.create_payload S now user) "expires_at"
  = VInt (now + TokenManager.get_token_expiration S).
Proof.
  unfold dict_get, TokenManager.create_payload.
  rewrite lookup_insert_ne by done.
  by rewrite lookup_insert_eq.
Qed.

Lemma create_payload_dom :
  dom (TokenManager.create_payload S now user)
  = ({["sub"; "expires_at"; "user_id"; "is_verified"; "role"]} : gset string).
Proof.
  unfold TokenManager.create_payload.
  rewrite !dom_insert_L, dom_empty_L. set_solver.
Qed.

Lemma create_payload_accepted s :
  TokenManager.email user = VStr s →
  jose_accepts (TokenManager.create_payload S now user).
Proof.
  intros Hs. split.
  - intros k Hk. apply not_elem_of_dom. rewrite create_payload_dom.
    unfold registered_claims in Hk.
    repeat (apply elem_of_cons in Hk as [-> | Hk]);
      [.. | by apply elem_of_nil in Hk];
      rewrite !elem_of_union, !elem_of_singleton; intuition discriminate.
  - intros v Hv. exists s.
    unfold TokenManager.create_payload in Hv.
    rewrite lookup_insert_eq in Hv. congruence.
Qed.
End Payload.

(** ** Expiry *)

Lemma is_expired_int now z :
  TokenManager.is_expired now (VInt z) = Ok (bool_decide (now > z)).
Proof.
  simpl. f_equal. case_bool_decide; [apply Z.ltb_lt | apply Z.ltb_ge]; lia.
Qed.

Lemma validate_payload_falsy_subject now payload :
  truthy (dict_get payload "sub") = false →
  TokenManager.validate_payload now payload = Raise InvalidCredentialsError.
Proof. unfold TokenManager.validate_payload. by intros ->. Qed.

Lemma validate_payload_int now payload z :
  truthy (dict_get payload "sub") = true →
  dict_get payload "expires_at" = VInt z →
  TokenManager.validate_payload now payload
  = if bool_decide (now > z) then Raise TokenExpiredError
    else Ok (dict_get payload "sub").
Proof.
  unfold TokenManager.validate_payload. intros -> ->.
  rewrite is_expired_int. simpl. by case_bool_decide.
Qed.

Lemma validate_payload_issued S issued_at user now :
  truthy (TokenManager.email user) = true →
  TokenManager.validate_payload now
    (TokenManager.create_payload S issued_at user)
  = if bool_decide (now > issued_at + TokenManager.get_token_expiration S)
    then Raise TokenExpiredError
    else Ok (TokenManager.email user).
Proof.
  intros Ht.
  rewrite (validate_payload_int _ _
             (issued_at + TokenManager.get_token_expiration S)).
  - by rewrite create_payload_sub.
  - by rewrite create_payload_sub.
  - apply create_payload_expires_at.
Qed.

(** C2.  Expiry is the strict comparison [current_time > expires_at].  A
    claim set issued at [issued_at] under a time-to-live of [t] seconds
    carries [expires_at = issued_at + t]; at [issued_at + t] the expiry test
    answers no and validation does not fail with [TokenExpiredError]; at
    [issued_at + t + 1] the test answers yes, and validation of a claim set
    with a subject fails with [TokenExpiredError]. *)
Theorem expiry_boundary (S : Settings) (issued_at : Z)
    (user : TokenManager.User) :
  let t := TokenManager.get_token_expiration S in
  let payload := TokenManager.create_payload S issued_at user in
  (∀ now z, TokenManager.is_expired now (VInt z) = Ok (bool_decide (now > z)))
  ∧ dict_get payload "expires_at" = VInt (issued_at + t)
  ∧ TokenManager.is_expired (issued_at + t) (dict_get payload "expires_at")
    = Ok false
  ∧ TokenManager.is_expired (issued_at + t + 1) (dict_get payload "expires_at")
    = Ok true
  ∧ TokenManager.validate_payload (issued_at + t) payload
    ≠ Raise TokenExpiredError
  ∧ (truthy (TokenManager.email user) = true →
     TokenManager.validate_payload (issued_at + t) payload
     = Ok (TokenManager.email user)
     ∧ TokenManager.validate_payload (issued_at + t + 1) payload
       = Raise TokenExpiredError).
Proof.
  intros t payload. subst payload.
  rewrite create_payload_expires_at. fold t.
  split; [apply is_expired_int |].
  split; [done |].
  split; [rewrite is_expired_int; by rewrite bool_decide_eq_false_2 by lia |].
  split; [rewrite is_expired_int; by rewrite bool_decide_eq_true_2 by lia |].
  split.
  - destruct (truthy (TokenManager.email user)) eqn:Ht.
    + rewrite validate_payload_issued by done. fold t.
      by rewrite bool_decide_eq_false_2 by lia.
    + rewrite validate_payload_falsy_subject; [done |].
      by rewrite create_payload_sub.
  - intros Ht. rewrite !validate_payload_issued by done. fold t.
    rewrite bool_decide_eq_false_2 by lia.
    by rewrite bool_decide_eq_true_2 by lia.
Qed.

(** The example of the specification: a time-to-live of one minute. *)
Lemma expiry_boundary_witness :
  TokenManager.validate_payload 1060
    (TokenManager.create_payload
       {| TOKEN_SECRET_KEY := py "k"; TOKEN_ALGORITHM := py "HS256";
          TOKEN_EXPIRE_MINUTES := 1 |} 1000 ann)
  = Ok (VStr (py "ann@example.org"))
  ∧ TokenManager.validate_payload 1061
      (TokenManager.create_payload
         {| TOKEN_SECRET_KEY := py "k"; TOKEN_ALGORITHM := py "HS256";
            TOKEN_EXPIRE_MINUTES := 1 |} 1000 ann)
    = Raise TokenExpiredError.
Proof.
  apply (expiry_boundary
           {| TOKEN_SECRET_KEY := py "k"; TOKEN_ALGORITHM := py "HS256";
              TOKEN_EXPIRE_MINUTES := 1 |} 1000 ann).
  reflexivity.
Defined.

(** ** Claim validation *)

(** C6, as the code has it.  A claim set whose subject is absent or empty
    fails with [InvalidCredentialsError], whatever its [expires_at]; with a
    subject and an integer [expires_at] it fails with [TokenExpiredError]
    exactly when the current time is greater, and yields the subject
    otherwise; with a subject and an [expires_at] that is absent or a string
    the comparison raises [TypeError]. *)
Theorem validate_payload_cases (now : Z) (payload : gmap string value) :
  (truthy (dict_get payload "sub") = false →
   TokenManager.validate_payload now payload = Raise InvalidCredentialsError)
  ∧ (∀ z, truthy (dict_get payload "sub") = true →
       payload !! "expires_at" = Some (VInt z) →
       TokenManager.validate_payload now payload
       = if bool_decide (now > z) then Raise TokenExpiredError
         else Ok (dict_get payload "sub"))
  ∧ (truthy (dict_get payload "sub") = true →
     (payload !! "expires_at" = None
      ∨ payload !! "expires_at" = Some VNone
      ∨ ∃ s, payload !! "expires_at" = Some (VStr s)) →
     TokenManager.validate_payload now payload = Raise TypeError).
Proof.
  split; [apply validate_payload_falsy_subject |]. split.
  - intros z Ht Hz. apply validate_payload_int; [done |].
    unfold dict_get. by rewrite Hz.
  - intros Ht He. unfold TokenManager.validate_payload. rewrite Ht. simpl.
    unfold dict_get at 1.
    destruct He as [-> | [-> | [s ->]]]; done.
Qed.

Lemma validate_payload_cases_witness :
  TokenManager.validate_payload 1500
    (<["sub" := VStr (py "a@b.c")]> {["expires_at" := VInt 2000]})
  = Ok (VStr (py "a@b.c"))
  ∧ TokenManager.validate_payload 2001
      (<["sub" := VStr (py "a@b.c")]> {["expires_at" := VInt 2000]})
    = Raise TokenExpiredError
  ∧ TokenManager.validate_payload 1500 {["expires_at" := VInt 2000]}
    = Raise InvalidCredentialsError.
Proof.
  split; [| split].
  - pose proof (validate_payload_cases 1500
                  (<["sub" := VStr (py "a@b.c")]>
                     {["expires_at" := VInt 2000]})) as (_ & Hint & _).
    by rewrite (Hint 2000) by reflexivity.
  - pose proof (validate_payload_cases 2001
                  (<["sub" := VStr (py "a@b.c")]>
                     {["expires_at" := VInt 2000]})) as (_ & Hint & _).
    by rewrite (Hint 2000) by reflexivity.
  - pose proof (validate_payload_cases 1500 {["expires_at" := VInt 2000]})
      as (Hsub & _).
    by apply Hsub.
Defined.


(** C6 as stated fails: with a subject present, an absent [expires_at] and
    an unparseable one both end in [TypeError], not [TokenExpiredError]. *)
Lemma validate_payload_without_expiry :
  ({["sub" := VStr (py "a@b.c")]} : gmap string value) !! "expires_at" = None
  ∧ TokenManager.validate_payload 0 {["sub" := VStr (py "a@b.c")]}
    = Raise TypeError
  ∧ TokenManager.validate_payload 0 {["sub" := VStr (py "a@b.c")]}
    ≠ Raise TokenExpiredError
  ∧ TokenManager.validate_payload 0
      (<["expires_at" := VStr (py "tomorrow")]>
         {["sub" := VStr (py "a@b.c")]})
    = Raise TypeError
  ∧ TokenManager.validate_payload 0
      (<["expires_at" := VStr (py "tomorrow")]>
         {["sub" := VStr (py "a@b.c")]})
    ≠ Raise TokenExpiredError.
Proof. vm_compute. repeat split; congruence. Qed.

(** ** The resolver *)

Ltac unfold_resolver :=
  unfold AuthenticationManager.get_current_user, AuthenticationManager.resolve,
    TokenManager.verify_token, TokenManager.decode_token,
    try_except, call, bind, raise, ret, lift, outcome, trace_of;
  simpl.

Section Resolver.
Context {UserModel : Type}.
Context (S : Settings) (J : Jose) (C : Collaborators UserModel) (now : Z).

Lemma get_current_user_no_token token :
  AuthenticationManager.token_truthy token = false →
  AuthenticationManager.get_current_user S J C now token
  = ([], Raise TokenMissingError).
Proof. unfold AuthenticationManager.get_current_user. by intros ->. Qed.

Lemma verify_token_no_token token :
  AuthenticationManager.token_truthy token = false →
  TokenManager.verify_token S J now token = ([], Raise TokenMissingError).
Proof. by destruct token as [[|]|]. Qed.

(** The handler of [get_current_user] applied to what the body did. *)
Lemma get_current_user_handler c s :
  outcome (AuthenticationManager.get_current_user S J C now (Some (c :: s)))
  = match outcome (AuthenticationManager.resolve S J C now (Some (c :: s)))
    with
    | Ok u => Ok u
    | Raise e =>
        Raise (if isinstance_TokenError e then e else TokenInvalidError)
    end.
Proof.
  unfold AuthenticationManager.get_current_user. simpl.
  destruct (AuthenticationManager.resolve S J C now (Some (c :: s)))
    as [t [u | e]]; simpl; [done |].
  by destruct (isinstance_TokenError e).
Qed.

(** The decode step failed. *)
Lemma get_current_user_decode_raises c s e :
  jwt_decode J now (c :: s) (TOKEN_SECRET_KEY S) [TOKEN_ALGORITHM S]
  = Raise e →
  AuthenticationManager.get_current_user S J C now (Some (c :: s))
  = ([EvJwtDecode (c :: s)],
     Raise (if isinstance_ExpiredSignatureError e then TokenExpiredError
            else if isinstance_JWTError e then TokenInvalidError
            else if isinstance_TokenError e then e
            else TokenInvalidError)).
Proof. intros He. unfold_resolver. rewrite He. by destruct e. Qed.

(** The decode step succeeded: what the rest of the body does. *)
Lemma get_current_user_decoded c s payload :
  jwt_decode J now (c :: s) (TOKEN_SECRET_KEY S) [TOKEN_ALGORITHM S]
  = Ok payload →
  outcome (AuthenticationManager.get_current_user S J C now (Some (c :: s)))
  = match TokenManager.validate_payload now payload with
    | Raise e =>
        Raise (if isinstance_TokenError e then e else TokenInvalidError)
    | Ok user_email =>
        match get_user_by_identifier C user_email with
        | Raise e =>
            Raise (if isinstance_TokenError e then e else TokenInvalidError)
        | Ok None => Raise TokenInvalidError
        | Ok (Some user) =>
            match model_validate C user with
            | Raise e =>
                Raise
                  (if isinstance_TokenError e then e else TokenInvalidError)
            | Ok user_schema =>
                Ok {| CurrentUserSchema.id :=
                        UserCredentialsSchema.id user_schema;
                      CurrentUserSchema.username :=
                        UserCredentialsSchema.username user_schema;
                      CurrentUserSchema.email :=
                        UserCredentialsSchema.email user_schema;
                      CurrentUserSchema.role :=
                        UserCredentialsSchema.role user_schema;
                      CurrentUserSchema.is_active :=
                        UserCredentialsSchema.is_active user_schema;
                      CurrentUserSchema.is_verified :=
                        UserCredentialsSchema.is_verified user_schema |}
            end
        end
    end.
Proof.
  intros Hd. unfold_resolver. rewrite Hd. simpl.
  destruct (TokenManager.validate_payload now payload) as [user_email | e];
    simpl; [| by destruct (isinstance_TokenError e)].
  destruct (get_user_by_identifier C user_email) as [[user |] | e];
    simpl; [| done | by destruct (isinstance_TokenError e)].
  destruct (model_validate C user) as [user_schema | e]; simpl; [done |].
  by destruct (isinstance_TokenError e).
Qed.

(** The user service raised. *)
Lemma resolve_lookup_raises c s payload user_email e :
  jwt_decode J now (c :: s) (TOKEN_SECRET_KEY S) [TOKEN_ALGORITHM S]
  = Ok payload →
  TokenManager.validate_payload now payload = Ok user_email →
  get_user_by_identifier C user_email = Raise e →
  outcome (AuthenticationManager.resolve S J C now (Some (c :: s)))
  = Raise e.
Proof.
  intros Hd Hv Hu.
  unfold_resolver. rewrite Hd. simpl. rewrite Hv. simpl. by rewrite Hu.
Qed.
End Resolver.

(** ** The sample codec meets the contract *)

Lemma sample_jose_decode_encode S now p :
  jwt_decode sample_jose now [Z.pos (encode (TOKEN_SECRET_KEY S, TOKEN_ALGORITHM S, p))]
    (TOKEN_SECRET_KEY S) [TOKEN_ALGORITHM S] = Ok p.
Proof.
  simpl. rewrite decode_encode.
  rewrite bool_decide_eq_true_2; [done |].
  split; [done | apply list_elem_of_singleton; done].
Qed.

Lemma sample_jose_raises now tok key algs e :
  jwt_decode sample_jose now tok key algs = Raise e → e = JWTError.
Proof.
  simpl. destruct tok as [| [| n |] [|]]; try congruence.
  destruct (decode n) as [[[key' alg'] p] |]; [| congruence].
  case_bool_decide; congruence.
Qed.

Lemma sample_jose_spec S : JoseSpec S sample_jose.
Proof.
  split.
  - intros p. by eexists.
  - intros p tok [= <-]. done.
  - intros p tok now' [= <-] _. apply sample_jose_decode_encode.
  - intros p tok now' e _ He [-> | ->];
      apply sample_jose_raises in He; discriminate.
Qed.

(** ** Round trip *)

(** C1.  Let [user] have a non-empty e-mail address.  Under the contract
    of the codec, the token generated from [create_payload user] is
    resolved by [get_current_user], at any time up to its expiry, to an
    identity with that address, provided the user service answers the
    address with a record whose schema carries it. *)
Theorem issued_token_resolves {UserModel : Type} (S : Settings) (J : Jose)
    (C : Collaborators UserModel) (user : TokenManager.User)
    (issued_at now : Z) (address : list Z) (record : UserModel)
    (schema : UserCredentialsSchema.t) :
  JoseSpec S J →
  TokenManager.email user = VStr address →
  address ≠ [] →
  now ≤ issued_at + TokenManager.get_token_expiration S →
  get_user_by_identifier C (VStr address) = Ok (Some record) →
  model_validate C record = Ok schema →
  UserCredentialsSchema.email schema = VStr address →
  ∃ token current_user,
    TokenManager.generate_token S J
      (TokenManager.create_payload S issued_at user) = Ok token
    ∧ outcome (AuthenticationManager.get_current_user S J C now (Some token))
      = Ok current_user
    ∧ CurrentUserSchema.email current_user = VStr address.
Proof.
  intros HJ Hmail Hne Hnow Hfind Hvalid Hschema.
  destruct (jose_encode_total S J HJ
              (TokenManager.create_payload S issued_at user)) as [token Htok].
  pose proof (jose_token_nonempty S J HJ _ _ Htok) as Hnonempty.
  pose proof (jose_roundtrip S J HJ _ _ now Htok
                (create_payload_accepted S issued_at user address Hmail))
    as Hdecode.
  destruct token as [| c s]; [done |].
  eexists (c :: s), _. split; [exact Htok |].
  rewrite (get_current_user_decoded S J C now c s _ Hdecode).
  rewrite validate_payload_issued by (rewrite Hmail; by destruct address).
  rewrite bool_decide_eq_false_2 by lia.
  rewrite Hmail, Hfind, Hvalid. split; [reflexivity | exact Hschema].
Qed.

Lemma issued_token_resolves_witness :
  ∃ token current_user,
    TokenManager.generate_token sample_settings sample_jose
      (TokenManager.create_payload sample_settings 1000 ann) = Ok token
    ∧ outcome (AuthenticationManager.get_current_user sample_settings
                 sample_jose
                 (table_service [(VStr (py "ann@example.org"), ann_schema)])
                 (1000 + 86400) (Some token))
      = Ok current_user
    ∧ CurrentUserSchema.email current_user = VStr (py "ann@example.org").
Proof.
  apply (issued_token_resolves sample_settings sample_jose
           (table_service [(VStr (py "ann@example.org"), ann_schema)])
           ann 1000 (1000 + 86400) (py "ann@example.org")
           ann_schema ann_schema).
  - apply sample_jose_spec.
  - reflexivity.
  - discriminate.
  - vm_compute. discriminate.
  - reflexivity.
  - reflexivity.
  - reflexivity.
Defined.

(** ** Error kinds of the resolver *)

(** C3.  For a token that passed the presence check: an error of kind
    [TokenMissingError], [TokenExpiredError] or [TokenInvalidError] raised
    in the body leaves [get_current_user] as it is, and every other
    exception raised there leaves it as [TokenInvalidError].  In particular
    an expired signature surfaces as [TokenExpiredError], and a failure of
    the user service, a schema mismatch and a [TypeError] of the claim
    validation surface as [TokenInvalidError]. *)
Theorem resolver_error_kinds {UserModel : Type} (S : Settings) (J : Jose)
    (C : Collaborators UserModel) (now c : Z) (s : list Z) :
  let token := Some (c :: s) in
  let body := outcome (AuthenticationManager.resolve S J C now token) in
  let got := outcome (AuthenticationManager.get_current_user S J C now token) in
  let decoded :=
    jwt_decode J now (c :: s) (TOKEN_SECRET_KEY S) [TOKEN_ALGORITHM S] in
  (∀ e, body = Raise e →
        e ∈ [TokenMissingError; TokenExpiredError; TokenInvalidError] →
        got = Raise e)
  ∧ (∀ e, body = Raise e →
          e ∉ [TokenMissingError; TokenExpiredError; TokenInvalidError] →
          got = Raise TokenInvalidError)
  ∧ (decoded = Raise ExpiredSignatureError → got = Raise TokenExpiredError)
  ∧ (∀ payload user_email e,
       decoded = Ok payload →
       TokenManager.validate_payload now payload = Ok user_email →
       get_user_by_identifier C user_email = Raise e →
       isinstance_TokenError e = false →
       got = Raise TokenInvalidError)
  ∧ (∀ payload user_email user e,
       decoded = Ok payload →
       TokenManager.validate_payload now payload = Ok user_email →
       get_user_by_identifier C user_email = Ok (Some user) →
       model_validate C user = Raise e →
       isinstance_TokenError e = false →
       got = Raise TokenInvalidError)
  ∧ (∀ payload,
       decoded = Ok payload →
       TokenManager.validate_payload now payload = Raise TypeError →
       got = Raise TokenInvalidError).
Proof.
  intros token body got decoded. subst token body got decoded.
  rewrite get_current_user_handler.
  split; [| split; [| split; [| split; [| split]]]].
  - intros e -> He.
    repeat (apply elem_of_cons in He as [-> | He]); try done.
    by apply elem_of_nil in He.
  - intros e -> He. destruct e; try done; exfalso; apply He;
      repeat first [apply list_elem_of_here | apply list_elem_of_further].
  - intros Hd. rewrite <- get_current_user_handler.
    by rewrite (get_current_user_decode_raises S J C now c s _ Hd).
  - intros payload user_email e Hd Hv Hu He.
    rewrite <- get_current_user_handler.
    rewrite (get_current_user_decoded S J C now c s _ Hd), Hv, Hu.
    by rewrite He.
  - intros payload user_email user e Hd Hv Hu Hm He.
    rewrite <- get_current_user_handler.
    rewrite (get_current_user_decoded S J C now c s _ Hd), Hv, Hu, Hm.
    by rewrite He.
  - intros payload Hd Hv.
    rewrite <- get_current_user_handler.
    by rewrite (get_current_user_decoded S J C now c s _ Hd), Hv.
Qed.

(** The user service is out of order while a good token is resolved. *)
Lemma resolver_error_kinds_witness :
  outcome
    (AuthenticationManager.resolve sample_settings sample_jose failing_service
       1001
       (Some [Z.pos (encode (TOKEN_SECRET_KEY sample_settings,
                             TOKEN_ALGORITHM sample_settings,
                             TokenManager.create_payload sample_settings 1000
                               ann))]))
  = Raise (OtherError "ConnectionError")
  ∧ outcome
      (AuthenticationManager.get_current_user sample_settings sample_jose
         failing_service 1001
         (Some [Z.pos (encode (TOKEN_SECRET_KEY sample_settings,
                               TOKEN_ALGORITHM sample_settings,
                               TokenManager.create_payload sample_settings 1000
                                 ann))]))
    = Raise TokenInvalidError.
Proof.
  pose proof (sample_jose_decode_encode sample_settings 1001
                (TokenManager.create_payload sample_settings 1000 ann)) as Hd.
  assert (TokenManager.validate_payload 1001
            (TokenManager.create_payload sample_settings 1000 ann)
          = Ok (VStr (py "ann@example.org"))) as Hv
    by (by rewrite validate_payload_issued by done).
  assert (outcome
            (AuthenticationManager.resolve sample_settings sample_jose
               failing_service 1001
               (Some [Z.pos (encode (TOKEN_SECRET_KEY sample_settings,
                                     TOKEN_ALGORITHM sample_settings,
                                     TokenManager.create_payload
                                       sample_settings 1000 ann))]))
          = Raise (OtherError "ConnectionError")) as Hbody.
  { by apply (resolve_lookup_raises sample_settings sample_jose
                failing_service 1001 _ _ _ _ _ Hd Hv). }
  split; [exact Hbody |].
  pose proof (resolver_error_kinds sample_settings sample_jose failing_service
                1001
                (Z.pos (encode (TOKEN_SECRET_KEY sample_settings,
                                TOKEN_ALGORITHM sample_settings,
                                TokenManager.create_payload sample_settings
                                  1000 ann))) [])
    as (_ & Hother & _).
  apply (Hother _ Hbody).
  rewrite !elem_of_cons, elem_of_nil. intuition discriminate.
Defined.


(** ** Missing and invalid tokens *)

(** C4.  Without a token, or with the empty string, both
    [get_current_user] and [verify_token] fail with [TokenMissingError] and
    the trace is empty: the codec was not called.  With a non-empty string
    that the codec rejects, with a [JWTError] or any other exception that
    is not an expired signature (nor one of the two other token kinds, which
    the codec does not raise), [get_current_user] fails with
    [TokenInvalidError] after the one call of the codec.  The two kinds
    differ. *)
Theorem missing_versus_invalid {UserModel : Type} (S : Settings) (J : Jose)
    (C : Collaborators UserModel) (now : Z) :
  (∀ token, token = None ∨ token = Some [] →
     AuthenticationManager.get_current_user S J C now token
     = ([], Raise TokenMissingError)
     ∧ TokenManager.verify_token S J now token = ([], Raise TokenMissingError))
  ∧ (∀ c s e,
       jwt_decode J now (c :: s) (TOKEN_SECRET_KEY S) [TOKEN_ALGORITHM S]
       = Raise e →
       e ∉ [ExpiredSignatureError; TokenMissingError; TokenExpiredError] →
       AuthenticationManager.get_current_user S J C now (Some (c :: s))
       = ([EvJwtDecode (c :: s)], Raise TokenInvalidError))
  ∧ TokenMissingError ≠ TokenInvalidError.
Proof.
  split; [| split; [| done]].
  - intros token [-> | ->]; split;
      first [by apply get_current_user_no_token
            | by apply verify_token_no_token].
  - intros c s e Hd He.
    rewrite (get_current_user_decode_raises S J C now c s e Hd).
    destruct e; try done; exfalso; apply He;
      repeat first [apply list_elem_of_here | apply list_elem_of_further].
Qed.

(** A string that was never signed, given to the sample codec. *)
Lemma missing_versus_invalid_witness :
  AuthenticationManager.get_current_user sample_settings sample_jose
    (table_service []) 0 (Some (py "garbage"))
  = ([EvJwtDecode (py "garbage")], Raise TokenInvalidError)
  ∧ AuthenticationManager.get_current_user sample_settings sample_jose
      (table_service []) 0 (Some [])
    = ([], Raise TokenMissingError)
  ∧ AuthenticationManager.get_current_user sample_settings sample_jose
      (table_service []) 0 None
    = ([], Raise TokenMissingError).
Proof.
  pose proof (missing_versus_invalid sample_settings sample_jose
                (table_service []) 0) as (Hmissing & Hinvalid & _).
  split; [| split].
  - apply (Hinvalid 103 (py "arbage") JWTError); [reflexivity |].
    rewrite !elem_of_cons, elem_of_nil. intuition discriminate.
  - apply Hmissing. by right.
  - apply Hmissing. by left.
Defined.

(** ** A token whose user is gone *)

(** [get_current_user] is [get_current_user_under] at the hierarchy of the
    three token kinds. *)
Lemma get_current_user_under_three_kinds {UserModel : Type} (S : Settings)
    (J : Jose) (C : Collaborators UserModel) (now : Z)
    (token : option (list Z)) :
  get_current_user_under isinstance_TokenError S J C now token
  = AuthenticationManager.get_current_user S J C now token.
Proof. reflexivity. Qed.

(** What the handlers make of the body, for every hierarchy. *)
Lemma get_current_user_under_handler {UserModel : Type}
    (is_token_error : exn → bool) (S : Settings) (J : Jose)
    (C : Collaborators UserModel) (now c : Z) (s : list Z) :
  outcome (get_current_user_under is_token_error S J C now (Some (c :: s)))
  = match outcome (AuthenticationManager.resolve S J C now (Some (c :: s)))
    with
    | Ok u => Ok u
    | Raise e => Raise (if is_token_error e then e else TokenInvalidError)
    end.
Proof.
  unfold get_current_user_under. simpl.
  destruct (AuthenticationManager.resolve S J C now (Some (c :: s)))
    as [t [u | e]]; simpl; [done |].
  by destruct (is_token_error e).
Qed.




(** ** Where expiry is enforced *)

Lemma decode_token_outcome S J now token :
  outcome (TokenManager.decode_token S J now token)
  = match jwt_decode J now token (TOKEN_SECRET_KEY S) [TOKEN_ALGORITHM S] with
    | Ok p => Ok p
    | Raise e =>
        Raise (if isinstance_ExpiredSignatureError e then TokenExpiredError
               else if isinstance_JWTError e then TokenInvalidError
               else e)
    end.
Proof.
  unfold TokenManager.decode_token, try_except, call, outcome.
  destruct (jwt_decode J now token _ _) as [p | e]; [done |].
  by destruct e.
Qed.

(** C10.  The claim set of [create_payload] has the keys [sub],
    [expires_at], [user_id], [is_verified], [role] and no others, so no
    [exp].  Under the contract of the codec, decoding a token generated
    from it never raises [ExpiredSignatureError], and [decode_token] never
    fails with [TokenExpiredError]; past [expires_at] the token still
    decodes to its claim set, and it is [validate_payload] that fails with
    [TokenExpiredError], which is what [get_current_user] reports. *)
Theorem issued_token_expiry_is_custom {UserModel : Type} (S : Settings)
    (J : Jose) (user : TokenManager.User) (issued_at : Z) :
  JoseSpec S J →
  let payload := TokenManager.create_payload S issued_at user in
  dom payload
  = ({["sub"; "expires_at"; "user_id"; "is_verified"; "role"]} : gset string)
  ∧ payload !! "exp" = None
  ∧ (∀ token now,
       TokenManager.generate_token S J payload = Ok token →
       jwt_decode J now token (TOKEN_SECRET_KEY S) [TOKEN_ALGORITHM S]
       ≠ Raise ExpiredSignatureError
       ∧ outcome (TokenManager.decode_token S J now token)
         ≠ Raise TokenExpiredError)
  ∧ (∀ token now address (C : Collaborators UserModel),
       TokenManager.generate_token S J payload = Ok token →
       TokenManager.email user = VStr address →
       address ≠ [] →
       now > issued_at + TokenManager.get_token_expiration S →
       outcome (TokenManager.decode_token S J now token) = Ok payload
       ∧ TokenManager.validate_payload now payload = Raise TokenExpiredError
       ∧ outcome (AuthenticationManager.get_current_user S J C now
                    (Some token)) = Raise TokenExpiredError).
Proof.
  intros HJ payload.
  assert (payload !! "exp" = None) as Hexp.
  { apply not_elem_of_dom. unfold payload. rewrite create_payload_dom.
    rewrite !elem_of_union, !elem_of_singleton. intuition discriminate. }
  split; [apply create_payload_dom |]. split; [exact Hexp |]. split.
  - intros token now Htok.
    assert (∀ e,
      jwt_decode J now token (TOKEN_SECRET_KEY S) [TOKEN_ALGORITHM S] = Raise e →
      e ≠ ExpiredSignatureError ∧ e ≠ TokenExpiredError) as Hnot.
    { intros e He. split; intros ->;
        destruct (jose_expired_only_exp S J HJ _ _ _ _ Htok He) as [v Hv];
        auto; congruence. }
    split.
    + intros He. by destruct (Hnot _ He).
    + rewrite decode_token_outcome.
      destruct (jwt_decode J now token _ _) as [p | e] eqn:He; [done |].
      destruct (Hnot e eq_refl) as [H1 H2]. destruct e; done.
  - intros token now address C Htok Hmail Hne Hnow.
    pose proof (jose_token_nonempty S J HJ _ _ Htok) as Hnonempty.
    pose proof (jose_roundtrip S J HJ _ _ now Htok
                  (create_payload_accepted S issued_at user address Hmail))
      as Hdecode.
    assert (TokenManager.validate_payload now payload
            = Raise TokenExpiredError) as Hv.
    { unfold payload.
      rewrite validate_payload_issued by (rewrite Hmail; by destruct address).
      by rewrite bool_decide_eq_true_2 by lia. }
    split; [by rewrite decode_token_outcome, Hdecode |].
    split; [exact Hv |].
    destruct token as [| c s]; [done |].
    by rewrite (get_current_user_decoded S J C now c s _ Hdecode), Hv.
Qed.

Lemma issued_token_expiry_is_custom_witness :
  JoseSpec sample_settings sample_jose
  ∧ TokenManager.create_payload sample_settings 1000 ann !! "exp" = None
  ∧ ∃ token,
      TokenManager.generate_token sample_settings sample_jose
        (TokenManager.create_payload sample_settings 1000 ann) = Ok token
      ∧ outcome (TokenManager.decode_token sample_settings sample_jose
                   2000000 token)
        = Ok (TokenManager.create_payload sample_settings 1000 ann)
      ∧ outcome (AuthenticationManager.get_current_user sample_settings
                   sample_jose (table_service []) 2000000 (Some token))
        = Raise TokenExpiredError.
Proof.
  pose proof (issued_token_expiry_is_custom
                (UserModel := UserCredentialsSchema.t)
                sample_settings sample_jose ann
                1000 (sample_jose_spec sample_settings))
    as (_ & Hexp & _ & Hlate).
  split; [apply sample_jose_spec |]. split; [exact Hexp |].
  eexists. split; [reflexivity |].
  assert (2000000 > 1000 + TokenManager.get_token_expiration sample_settings)
    as Hnow by (vm_compute; reflexivity).
  assert (py "ann@example.org" ≠ []) as Hne by discriminate.
  destruct (Hlate _ 2000000 (py "ann@example.org") (table_service [])
              eq_refl eq_refl Hne Hnow) as (Hdec & _ & Hgot).
  split; [exact Hdec | exact Hgot].
Defined.

(** ** Password hashes *)

(** C8, as the code has it.  [verify] returns the boolean that the context
    returns, and [False] when the context raises [UnknownHashError], as it
    does for a string such as [not-a-real-hash] that carries no Argon2
    identifier; any other exception of the context reaches the caller. *)
Theorem verify_outcomes (pwd_context : CryptContext)
    (hashed_password plain_password : list Z) :
  (∀ b, ctx_verify pwd_context plain_password hashed_password = Ok b →
        PasswordHasher.verify pwd_context hashed_password plain_password
        = Ok b)
  ∧ (ctx_verify pwd_context plain_password hashed_password
     = Raise UnknownHashError →
     PasswordHasher.verify pwd_context hashed_password plain_password
     = Ok false)
  ∧ (∀ e, ctx_verify pwd_context plain_password hashed_password = Raise e →
          e ≠ UnknownHashError →
          PasswordHasher.verify pwd_context hashed_password plain_password
          = Raise e)
  ∧ (∀ handler,
       PasswordHasher.verify (argon2_context handler) (py "not-a-real-hash")
         plain_password = Ok false).
Proof.
  unfold PasswordHasher.verify. repeat split.
  - by intros b ->.
  - by intros ->.
  - intros e -> He. by destruct e.
Qed.

Lemma verify_outcomes_witness :
  PasswordHasher.verify (argon2_context rejecting_handler)
    (py "not-a-real-hash") (py "anything")
  = Ok false.
Proof.
  pose proof (verify_outcomes (argon2_context rejecting_handler)
                (py "not-a-real-hash") (py "anything")) as (_ & Hunknown & _).
  apply Hunknown. reflexivity.
Defined.


(** C8 as stated fails: a string with an Argon2 identifier that the handler
    rejects as malformed makes [verify] raise. *)
Lemma verify_malformed_hash_raises :
  PasswordHasher.verify (argon2_context rejecting_handler)
    (py "$argon2id$v=19$broken") (py "anything")
  = Raise ValueError.
Proof. reflexivity. Qed.

(** ** Password strength *)

Section Strength.
Context (U : UnicodeDB) (password : list Z) (username : option (list Z)).

(** The list built by the successive appends is the list of all rules,
    in the order of the checks, cut down to the violated ones. *)
(** The tests of [violates] are the tests that the code makes. *)
Lemma violates_tests :
  violates U password username BasePasswordValidator.MinLength
  = negb (8 <=? Z.of_nat (length password))
  ∧ violates U password username BasePasswordValidator.Uppercase
    = negb (existsb BasePasswordValidator.class_upper password)
  ∧ violates U password username BasePasswordValidator.Lowercase
    = negb (existsb BasePasswordValidator.class_lower password)
  ∧ violates U password username BasePasswordValidator.Digit
    = negb (existsb (is_decimal U) password)
  ∧ violates U password username BasePasswordValidator.SpecialChar
    = negb (existsb BasePasswordValidator.class_special password)
  ∧ violates U password username BasePasswordValidator.CommonSequence
    = existsb (λ seq, str_contains seq (str_lower U password))
        BasePasswordValidator.common_sequences
  ∧ violates U password username BasePasswordValidator.ContainsUsername
    = match username with
      | None => false
      | Some u =>
          (3 <? Z.of_nat (length u)) &&
          str_contains (str_lower U u) (str_lower U password)
      end.
Proof. repeat split. Qed.

Lemma password_errors_filter :
  BasePasswordValidator.password_errors U password username
  = filter (λ r, violates U password username r = true) all_rules.
Proof.
  unfold BasePasswordValidator.password_errors, all_rules, re_search.
  rewrite !filter_cons, filter_nil. cbv zeta.
  destruct violates_tests as (-> & -> & -> & -> & -> & -> & ->).
  rewrite (Z.ltb_antisym 8 (Z.of_nat (length password))).
  generalize (8 <=? Z.of_nat (length password)).
  generalize (existsb BasePasswordValidator.class_upper password).
  generalize (existsb BasePasswordValidator.class_lower password).
  generalize (existsb (is_decimal U) password).
  generalize (existsb BasePasswordValidator.class_special password).
  generalize (existsb (λ seq, str_contains seq (str_lower U password))
                BasePasswordValidator.common_sequences).
  destruct username as [[| c u] |].
  - change (3 <? Z.of_nat (length (@nil Z))) with false.
    by intros [] [] [] [] [] [].
  - generalize (3 <? Z.of_nat (length (c :: u))).
    generalize (str_contains (str_lower U (c :: u)) (str_lower U password)).
    by intros [] [] [] [] [] [] [] [].
  - by intros [] [] [] [] [] [].
Qed.

Lemma password_errors_elem r :
  r ∈ BasePasswordValidator.password_errors U password username
  ↔ violates U password username r = true.
Proof.
  rewrite password_errors_filter, list_elem_of_filter.
  split; [by intros [? _] | intros Hr; split; [done |]].
  unfold all_rules.
  destruct r;
    repeat first [apply list_elem_of_here | apply list_elem_of_further].
Qed.

Lemma password_errors_NoDup :
  NoDup (BasePasswordValidator.password_errors U password username).
Proof.
  rewrite password_errors_filter. apply NoDup_filter.
  unfold all_rules.
  repeat (apply NoDup_cons; split;
          [rewrite ?elem_of_cons, elem_of_nil; intuition discriminate |]).
  apply NoDup_nil_2.
Qed.
End Strength.

(** C7.  Every rule is tested on its own: a rule is among the collected
    errors exactly when it is violated, whatever the other rules say, and
    it is collected once.  The call fails as soon as some rule is violated;
    the failure carries the messages of exactly the violated rules, in the
    order of the checks, joined by ["; "], each rule having a message of its
    own.  When no rule is violated the password is returned as it was
    given.  For ["abc"] without a username (none of [a], [b], [c] being a
    decimal digit) the call fails, and the failure starts with the four
    messages on length, uppercase letter, digit and special character. *)
Theorem strength_rules_aggregated (U : UnicodeDB) (password : list Z)
    (username : option (list Z)) :
  let errors := BasePasswordValidator.password_errors U password username in
  let verdict :=
    BasePasswordValidator.validate_password_strength U password username in
  (∀ r, r ∈ errors ↔ violates U password username r = true)
  ∧ NoDup errors
  ∧ ((∃ r, violates U password username r = true) →
     verdict
     = Raise (WeakPasswordError
                (String.concat "; "
                   (BasePasswordValidator.message
                      <$> filter (λ r, violates U password username r = true)
                            all_rules))))
  ∧ ((∀ r, violates U password username r = false) → verdict = Ok password)
  ∧ (∀ returned, verdict = Ok returned →
       returned = password ∧ ∀ r, violates U password username r = false)
  ∧ BasePasswordValidator.message <$> all_rules
    = ["Пароль должен содержать минимум 8 символов";
       "Пароль должен содержать хотя бы одну заглавную букву";
       "Пароль должен содержать хотя бы одну строчную букву";
       "Пароль должен содержать хотя бы одну цифру";
       "Пароль должен содержать хотя бы один специальный символ";
       "Пароль не должен содержать распространенные последовательности";
       "Пароль не должен содержать имя пользователя"]
  ∧ (Forall (λ c, is_decimal U c = false) (py "abc") →
     ∃ rest,
       BasePasswordValidator.password_errors U (py "abc") None
       = [BasePasswordValidator.MinLength; BasePasswordValidator.Uppercase;
          BasePasswordValidator.Digit; BasePasswordValidator.SpecialChar]
         ++ rest
       ∧ BasePasswordValidator.validate_password_strength U (py "abc") None
         = Raise (WeakPasswordError
                    (String.concat "; "
                       (["Пароль должен содержать минимум 8 символов";
                         "Пароль должен содержать хотя бы одну заглавную букву";
                         "Пароль должен содержать хотя бы одну цифру";
                         "Пароль должен содержать хотя бы один специальный символ"]
                        ++ (BasePasswordValidator.message <$> rest))))).
Proof.
  intros errors verdict. subst errors verdict.
  unfold BasePasswordValidator.validate_password_strength.
  split; [apply password_errors_elem |].
  split; [apply password_errors_NoDup |].
  split; [| split; [| split; [| split; [reflexivity |]]]].
  - intros [r Hr]. apply password_errors_elem in Hr.
    rewrite <- password_errors_filter.
    destruct (BasePasswordValidator.password_errors U password username);
      [by apply elem_of_nil in Hr | done].
  - intros Hnone.
    destruct (BasePasswordValidator.password_errors U password username)
      as [| r errors] eqn:He; [done |].
    assert (violates U password username r = true) as Hr.
    { apply password_errors_elem. rewrite He. apply list_elem_of_here. }
    rewrite Hnone in Hr. discriminate.
  - intros returned.
    destruct (BasePasswordValidator.password_errors U password username)
      as [| r errors] eqn:He; [| discriminate].
    intros [= <-]. split; [done |]. intros r.
    destruct (violates U password username r) eqn:Hr; [| done].
    apply password_errors_elem in Hr. rewrite He in Hr.
    by apply elem_of_nil in Hr.
  - intros Hd.
    assert (existsb (is_decimal U) (py "abc") = false) as Hdigit.
    { apply Forall_cons in Hd as [Ha Hd]. apply Forall_cons in Hd as [Hb Hd].
      apply Forall_cons in Hd as [Hc _]. simpl. by rewrite Ha, Hb, Hc. }
    unfold BasePasswordValidator.password_errors, re_search.
    rewrite Hdigit.
    change (Z.of_nat (length (py "abc")) <? 8) with true.
    change (existsb BasePasswordValidator.class_upper (py "abc")) with false.
    change (existsb BasePasswordValidator.class_lower (py "abc")) with true.
    change (existsb BasePasswordValidator.class_special (py "abc")) with false.
    cbv zeta. cbn [negb app].
    destruct (existsb _ BasePasswordValidator.common_sequences);
      eexists; split; reflexivity.
Qed.

(** The examples of the specification, on the Basic Latin tables. *)
Lemma strength_rules_aggregated_witness :
  ∃ rest,
    BasePasswordValidator.password_errors basic_unicode (py "abc") None
    = [BasePasswordValidator.MinLength; BasePasswordValidator.Uppercase;
       BasePasswordValidator.Digit; BasePasswordValidator.SpecialChar]
      ++ rest
    ∧ BasePasswordValidator.validate_password_strength basic_unicode
        (py "abc") None
      = Raise (WeakPasswordError
                 (String.concat "; "
                    (["Пароль должен содержать минимум 8 символов";
                      "Пароль должен содержать хотя бы одну заглавную букву";
                      "Пароль должен содержать хотя бы одну цифру";
                      "Пароль должен содержать хотя бы один специальный символ"]
                     ++ (BasePasswordValidator.message <$> rest)))).
Proof.
  pose proof (strength_rules_aggregated basic_unicode (py "abc") None)
    as (_ & _ & _ & _ & _ & _ & H).
  apply H. repeat constructor.
Defined.

Example weak_password_example :
  BasePasswordValidator.password_errors basic_unicode (py "abc") None
  = [BasePasswordValidator.MinLength; BasePasswordValidator.Uppercase;
     BasePasswordValidator.Digit; BasePasswordValidator.SpecialChar].
Proof. reflexivity. Qed.

Example username_in_password_example :
  BasePasswordValidator.password_errors basic_unicode (py "JohnDoe123!")
    (Some (py "johndoe"))
  = [BasePasswordValidator.ContainsUsername].
Proof. reflexivity. Qed.

Example strong_password_example :
  BasePasswordValidator.validate_password_strength basic_unicode
    (py "Str0ng!Pass") (Some (py "ann"))
  = Ok (py "Str0ng!Pass").
Proof. reflexivity. Qed.

(** C9, as the code has it.  The uppercase rule is satisfied exactly by the
    passwords with a code point in [A-Z] (U+0041..U+005A) or in the Russian
    capitals (U+0410..U+042F). *)
Theorem uppercase_rule_ranges (U : UnicodeDB) (password : list Z)
    (username : option (list Z)) :
  BasePasswordValidator.Uppercase
    ∉ BasePasswordValidator.password_errors U password username
  ↔ ∃ c, c ∈ password ∧ (65 ≤ c ≤ 90 ∨ 1040 ≤ c ≤ 1071).
Proof.
  rewrite password_errors_elem. cbn [violates].
  rewrite negb_true_iff, not_false_iff_true, existsb_exists.
  unfold BasePasswordValidator.class_upper, in_range.
  split; intros [c [Hc Hr]]; exists c.
  - split; [by apply list_elem_of_In |]. lia.
  - split; [by apply list_elem_of_In |]. lia.
Qed.

(** A Russian capital satisfies the rule. *)
Lemma uppercase_rule_ranges_witness :
  BasePasswordValidator.Uppercase
    ∉ BasePasswordValidator.password_errors basic_unicode
        (1055 :: py "arol1!xyz") None.
Proof.
  apply (uppercase_rule_ranges basic_unicode (1055 :: py "arol1!xyz") None).
  exists 1055. split; [apply list_elem_of_here | lia].
Defined.


(** C9 as stated fails: a Greek capital omega and a Latin capital E with
    acute are uppercase letters, and the rule reports them missing. *)
Lemma foreign_uppercase_rejected :
  uppercase_letter 937 = true
  ∧ uppercase_letter 201 = true
  ∧ BasePasswordValidator.password_errors basic_unicode
      (937 :: py "mega1!xyz") None
    = [BasePasswordValidator.Uppercase]
  ∧ BasePasswordValidator.password_errors basic_unicode
      (201 :: py "cole1!xyz") None
    = [BasePasswordValidator.Uppercase].
Proof. repeat split; reflexivity. Qed.

(** * Further properties of the token code and the resolver *)

(** X1.  The user service is consulted only for a token that decoded and
    whose claims passed validation, and with the validated subject; the
    schema validation runs only on a user the service returned. *)
Theorem collaborators_called_in_order {UserModel : Type} (S : Settings)
    (J : Jose) (C : Collaborators UserModel) (now : Z)
    (token : option (list Z)) :
  (∀ identifier,
     EvGetUser identifier
       ∈ trace_of (AuthenticationManager.get_current_user S J C now token) →
     ∃ c s payload,
       token = Some (c :: s)
       ∧ jwt_decode J now (c :: s) (TOKEN_SECRET_KEY S) [TOKEN_ALGORITHM S]
         = Ok payload
       ∧ TokenManager.validate_payload now payload = Ok identifier)
  ∧ (EvModelValidate
       ∈ trace_of (AuthenticationManager.get_current_user S J C now token) →
     ∃ identifier user,
       EvGetUser identifier
         ∈ trace_of (AuthenticationManager.get_current_user S J C now token)
       ∧ get_user_by_identifier C identifier = Ok (Some user)).
Proof.
  destruct token as [[| c s] |];
    [split; [intros ? H | intros H]; by apply elem_of_nil in H
    | | split; [intros ? H | intros H]; by apply elem_of_nil in H].
  unfold_resolver.
  destruct (jwt_decode J now (c :: s) _ _) as [payload | e] eqn:Hd; simpl.
  2:{ destruct e; simpl; split; intros; exfalso;
        repeat match goal with
               | H : _ ∈ _ |- _ =>
                   rewrite ?elem_of_cons, ?elem_of_nil in H;
                   intuition discriminate
               end. }
  destruct (TokenManager.validate_payload now payload)
    as [user_email | e] eqn:Hv; simpl.
  2:{ destruct (isinstance_TokenError e); simpl; split; intros; exfalso;
        repeat match goal with
               | H : _ ∈ _ |- _ =>
                   rewrite ?elem_of_cons, ?elem_of_nil in H;
                   intuition discriminate
               end. }
  destruct (get_user_by_identifier C user_email) as [[user |] | e] eqn:Hu;
    simpl.
  - destruct (model_validate C user) as [schema | e] eqn:Hm; simpl;
      [| destruct (isinstance_TokenError e); simpl];
      (split;
       [ intros identifier H;
         rewrite ?elem_of_cons, ?elem_of_nil in H;
         destruct H as [H | [H | [H | H]]]; try done;
         injection H as ->; by exists c, s, payload
       | intros _; exists user_email, user; split; [| done];
         rewrite ?elem_of_cons; right; by left ]).
  - split.
    + intros identifier H.
      rewrite ?elem_of_cons, ?elem_of_nil in H.
      destruct H as [H | [H | H]]; try done.
      injection H as ->. by exists c, s, payload.
    + intros H. rewrite ?elem_of_cons, ?elem_of_nil in H.
      intuition discriminate.
  - destruct (isinstance_TokenError e); simpl; split.
    all: try (intros identifier H;
              rewrite ?elem_of_cons, ?elem_of_nil in H;
              destruct H as [H | [H | H]]; try done;
              injection H as ->; by exists c, s, payload).
    all: intros H; rewrite ?elem_of_cons, ?elem_of_nil in H;
      intuition discriminate.
Qed.

Lemma get_current_user_calls_user_service {UserModel : Type} (S : Settings)
    (J : Jose) (C : Collaborators UserModel) (now c : Z) (s : list Z)
    (payload : gmap string value) (user_email : value) :
  jwt_decode J now (c :: s) (TOKEN_SECRET_KEY S) [TOKEN_ALGORITHM S]
  = Ok payload →
  TokenManager.validate_payload now payload = Ok user_email →
  EvGetUser user_email
    ∈ trace_of (AuthenticationManager.get_current_user S J C now
                  (Some (c :: s))).
Proof.
  intros Hd Hv. unfold_resolver. rewrite Hd. simpl. rewrite Hv. simpl.
  destruct (get_user_by_identifier C user_email) as [[user |] | e]; simpl.
  - destruct (model_validate C user) as [schema | e]; simpl;
      [| destruct (isinstance_TokenError e); simpl];
      rewrite !elem_of_cons; right; by left.
  - rewrite !elem_of_cons. right. by left.
  - destruct (isinstance_TokenError e); simpl;
      rewrite !elem_of_cons; right; by left.
Qed.

Lemma collaborators_called_in_order_witness :
  ∃ payload,
    jwt_decode sample_jose 1001
      [Z.pos (encode (TOKEN_SECRET_KEY sample_settings,
                      TOKEN_ALGORITHM sample_settings,
                      TokenManager.create_payload sample_settings 1000 ann))]
      (TOKEN_SECRET_KEY sample_settings) [TOKEN_ALGORITHM sample_settings]
    = Ok payload
    ∧ TokenManager.validate_payload 1001 payload
      = Ok (VStr (py "ann@example.org")).
Proof.
  pose proof (collaborators_called_in_order sample_settings sample_jose
                failing_service 1001
                (Some [Z.pos (encode (TOKEN_SECRET_KEY sample_settings,
                                      TOKEN_ALGORITHM sample_settings,
                                      TokenManager.create_payload
                                        sample_settings 1000 ann))]))
    as [Hcalled _].
  destruct (Hcalled (VStr (py "ann@example.org"))) as (c & s & p & Ht & Hd & Hv).
  - apply (get_current_user_calls_user_service sample_settings sample_jose
             failing_service 1001 _ []
             (TokenManager.create_payload sample_settings 1000 ann)).
    + apply sample_jose_decode_encode.
    + by rewrite validate_payload_issued by done.
  - injection Ht as <- <-. exists p. split; [exact Hd | exact Hv].
Defined.

(** X2.  Whatever the collaborators do and whatever the class hierarchy
    of the exceptions is, an exception that leaves [get_current_user] is a
    [TokenMissingError], a [TokenInvalidError], or an instance of
    [TokenError] that the body of the [try] raised; no other exception of
    the codec, the user service or the schema validation leaves it. *)
Theorem get_current_user_raises_token_errors_only {UserModel : Type}
    (is_token_error : exn → bool) (S : Settings) (J : Jose)
    (C : Collaborators UserModel) (now : Z) (token : option (list Z))
    (e : exn) :
  outcome (get_current_user_under is_token_error S J C now token) = Raise e →
  e = TokenMissingError
  ∨ e = TokenInvalidError
  ∨ (is_token_error e = true
     ∧ outcome (AuthenticationManager.resolve S J C now token) = Raise e).
Proof.
  destruct token as [[| c s] |]; [by intros [= <-]; left | | by intros [= <-]; left].
  rewrite get_current_user_under_handler.
  destruct (outcome (AuthenticationManager.resolve S J C now (Some (c :: s))))
    as [u | e']; [done |].
  destruct (is_token_error e') eqn:He; intros [= <-].
  - right. right. done.
  - right. by left.
Qed.

Lemma get_current_user_raises_token_errors_only_witness :
  TokenInvalidError = TokenMissingError
  ∨ TokenInvalidError = TokenInvalidError
  ∨ (isinstance_TokenError TokenInvalidError = true
     ∧ outcome (AuthenticationManager.resolve sample_settings sample_jose
                  (table_service []) 0 (Some (py "garbage")))
       = Raise TokenInvalidError).
Proof.
  apply (get_current_user_raises_token_errors_only isinstance_TokenError
           sample_settings sample_jose (table_service []) 0
           (Some (py "garbage")) TokenInvalidError).
  reflexivity.
Defined.

(** X3.  [decode_token] calls the codec exactly once, and no exception of
    python-jose leaves it: an expired signature comes out as
    [TokenExpiredError], every other [JWTError] as [TokenInvalidError], and
    an exception that is not a [JWTError] comes out as it is. *)
Theorem decode_token_translates_jose_errors (S : Settings) (J : Jose)
    (now : Z) (token : list Z) :
  trace_of (TokenManager.decode_token S J now token) = [EvJwtDecode token]
  ∧ (∀ e, outcome (TokenManager.decode_token S J now token) = Raise e →
          isinstance_JWTError e = false)
  ∧ (∀ e, jwt_decode J now token (TOKEN_SECRET_KEY S) [TOKEN_ALGORITHM S]
          = Raise e →
          isinstance_JWTError e = false →
          outcome (TokenManager.decode_token S J now token) = Raise e).
Proof.
  split; [| split].
  - unfold TokenManager.decode_token, try_except, call, trace_of.
    destruct (jwt_decode J now token _ _) as [p | e]; [done |].
    by destruct e.
  - intros e. rewrite decode_token_outcome.
    destruct (jwt_decode J now token _ _) as [p | e']; [done |].
    intros [= <-]. by destruct e'.
  - intros e He Hj. rewrite decode_token_outcome, He.
    by destruct e.
Qed.

Lemma decode_token_translates_jose_errors_witness :
  outcome (TokenManager.decode_token sample_settings sample_jose 0
             (py "garbage")) = Raise TokenInvalidError
  ∧ isinstance_JWTError TokenInvalidError = false.
Proof.
  split; [reflexivity |].
  apply (decode_token_translates_jose_errors sample_settings sample_jose 0
           (py "garbage")).
  reflexivity.
Defined.

(** X4.  A claim set issued for a user with a subject is accepted by
    [validate_payload] at exactly the times up to and including
    [issued_at + 60 * TOKEN_EXPIRE_MINUTES]; there is no lower bound, so it
    is accepted at any time before it was issued as well. *)
Theorem issued_payload_validity_window (S : Settings) (issued_at now : Z)
    (user : TokenManager.User) :
  truthy (TokenManager.email user) = true →
  (TokenManager.validate_payload now
     (TokenManager.create_payload S issued_at user)
   = Ok (TokenManager.email user)
   ↔ now ≤ issued_at + 60 * TOKEN_EXPIRE_MINUTES S)
  ∧ (TokenManager.validate_payload now
       (TokenManager.create_payload S issued_at user)
     = Raise TokenExpiredError
     ↔ now > issued_at + 60 * TOKEN_EXPIRE_MINUTES S).
Proof.
  intros Ht. rewrite validate_payload_issued by done.
  unfold TokenManager.get_token_expiration.
  case_bool_decide; split; split; intros; try done; lia.
Qed.

Lemma issued_payload_validity_window_witness :
  TokenManager.validate_payload (-5)
    (TokenManager.create_payload sample_settings 1000 ann)
  = Ok (VStr (py "ann@example.org")).
Proof.
  apply (issued_payload_validity_window sample_settings 1000 (-5) ann);
    [reflexivity | vm_compute; discriminate].
Defined.

(** X5.  Each collaborator is called at most once and in a fixed order:
    the trace of [get_current_user] is an initial segment of "decode the
    token, look the subject up, validate the record", and a call that
    returns a user has made all three. *)
Theorem get_current_user_trace_shape {UserModel : Type} (S : Settings)
    (J : Jose) (C : Collaborators UserModel) (now : Z)
    (token : option (list Z)) :
  (∃ t identifier,
     trace_of (AuthenticationManager.get_current_user S J C now token)
       `prefix_of` [EvJwtDecode t; EvGetUser identifier; EvModelValidate])
  ∧ (∀ u,
       outcome (AuthenticationManager.get_current_user S J C now token) = Ok u →
       ∃ t identifier,
         token = Some t
         ∧ trace_of (AuthenticationManager.get_current_user S J C now token)
           = [EvJwtDecode t; EvGetUser identifier; EvModelValidate]).
Proof.
  destruct token as [[| c s] |];
    [split; [exists [], VNone; apply prefix_nil | done]
    | | split; [exists [], VNone; apply prefix_nil | done]].
  unfold_resolver.
  destruct (jwt_decode J now (c :: s) _ _) as [payload | e]; simpl.
  2:{ split; [exists (c :: s), VNone | by destruct e].
      destruct e; simpl; by eexists. }
  destruct (TokenManager.validate_payload now payload)
    as [user_email | e]; simpl.
  2:{ split; [exists (c :: s), VNone | by destruct (isinstance_TokenError e)].
      destruct (isinstance_TokenError e); simpl; by eexists. }
  destruct (get_user_by_identifier C user_email) as [[user |] | e]; simpl.
  - destruct (model_validate C user) as [schema | e]; simpl.
    + split; [exists (c :: s), user_email; by exists [] |].
      intros u _. by exists (c :: s), user_email.
    + split; [exists (c :: s), user_email
             | by destruct (isinstance_TokenError e)].
      destruct (isinstance_TokenError e); simpl; by exists [].
  - split; [exists (c :: s), user_email; by eexists | done].
  - split; [exists (c :: s), user_email
           | by destruct (isinstance_TokenError e)].
    destruct (isinstance_TokenError e); simpl; by eexists.
Qed.

Lemma get_current_user_trace_shape_witness :
  ∃ t identifier,
    Some [Z.pos (encode (TOKEN_SECRET_KEY sample_settings,
                         TOKEN_ALGORITHM sample_settings,
                         TokenManager.create_payload sample_settings 1000 ann))]
    = Some t
    ∧ trace_of (AuthenticationManager.get_current_user sample_settings
                  sample_jose (table_service [(VStr (py "ann@example.org"),
                                               ann_schema)]) 1001
                  (Some [Z.pos (encode (TOKEN_SECRET_KEY sample_settings,
                                        TOKEN_ALGORITHM sample_settings,
                                        TokenManager.create_payload
                                          sample_settings 1000 ann))]))
      = [EvJwtDecode t; EvGetUser identifier; EvModelValidate].
Proof.
  pose proof (get_current_user_trace_shape sample_settings sample_jose
                (table_service [(VStr (py "ann@example.org"), ann_schema)])
                1001
                (Some [Z.pos (encode (TOKEN_SECRET_KEY sample_settings,
                                      TOKEN_ALGORITHM sample_settings,
                                      TokenManager.create_payload
                                        sample_settings 1000 ann))]))
    as [_ Hok].
  eapply Hok.
  rewrite (get_current_user_decoded sample_settings sample_jose _ 1001 _ []
             _ (sample_jose_decode_encode sample_settings 1001 _)).
  rewrite validate_payload_issued by done.
  reflexivity.
Defined.

(** ** Further properties of the password policy *)

Lemma startswith_prefix (prefix s : list Z) :
  startswith prefix s = true ↔ ∃ b, s = prefix ++ b.
Proof.
  revert s. induction prefix as [| p prefix IH]; intros s; simpl.
  - split; [by exists s | done].
  - destruct s as [| c s].
    + split; [done | by intros [b ?]].
    + rewrite andb_true_iff, Z.eqb_eq, IH. split.
      * intros [-> [b ->]]. by exists b.
      * intros [b [= -> ->]]. split; [done | by exists b].
Qed.

(** [needle in hay] holds exactly when [needle] occurs in [hay] as a
    block of consecutive code points. *)
Lemma str_contains_infix (needle hay : list Z) :
  str_contains needle hay = true ↔ ∃ a b, hay = a ++ needle ++ b.
Proof.
  induction hay as [| c hay IH]; simpl.
  - rewrite startswith_prefix. split.
    + intros [b Hb]. by exists [], b.
    + intros (a & b & Hab). destruct a; [by exists b |]. done.
  - rewrite orb_true_iff, startswith_prefix, IH. split.
    + intros [[b Hb] | (a & b & ->)].
      * by exists [], b.
      * by exists (c :: a), b.
    + intros (a & b & Hab). destruct a as [| a0 a]; simpl in Hab.
      * left. by exists b.
      * right. injection Hab as -> ->. by exists a, b.
Qed.

(** X6.  The entry ["123456789"] of the list of common sequences decides
    nothing: the rule is violated exactly when the lowercased password
    contains one of the other five, since ["12345"] opens ["123456789"]. *)
Theorem common_sequence_rule_five_entries (U : UnicodeDB)
    (password : list Z) (username : option (list Z)) :
  BasePasswordValidator.CommonSequence
    ∈ BasePasswordValidator.password_errors U password username
  ↔ ∃ seq,
      seq ∈ [py "12345"; py "qwerty"; py "password"; py "admin"; py "abc123"]
      ∧ str_contains seq (str_lower U password) = true.
Proof.
  rewrite password_errors_elem. cbn [violates].
  unfold BasePasswordValidator.common_sequences.
  cbn [existsb]. rewrite orb_false_r, !orb_true_iff. split.
  - intros [H | [H | [H | [H | [H | H]]]]].
    + exists (py "12345"). split; [| done]. apply list_elem_of_here.
    + exists (py "qwerty"). split; [| done].
      repeat first [apply list_elem_of_here | apply list_elem_of_further].
    + exists (py "password"). split; [| done].
      repeat first [apply list_elem_of_here | apply list_elem_of_further].
    + exists (py "admin"). split; [| done].
      repeat first [apply list_elem_of_here | apply list_elem_of_further].
    + exists (py "12345"). split; [apply list_elem_of_here |].
      apply str_contains_infix in H as (a & b & Hab).
      apply str_contains_infix. exists a, (py "6789" ++ b).
      rewrite Hab. reflexivity.
    + exists (py "abc123"). split; [| done].
      repeat first [apply list_elem_of_here | apply list_elem_of_further].
  - intros (seq & Hseq & H).
    rewrite !elem_of_cons, elem_of_nil in Hseq.
    destruct Hseq as [-> | [-> | [-> | [-> | [-> | []]]]]]; tauto.
Qed.

(** X7.  The rule on the user name is violated exactly when a user name of
    more than three code points is given and its lowercase form occurs in
    the lowercase form of the password as a block. *)
Theorem username_rule_is_infix (U : UnicodeDB) (password : list Z)
    (username : option (list Z)) :
  BasePasswordValidator.ContainsUsername
    ∈ BasePasswordValidator.password_errors U password username
  ↔ ∃ u a b,
      username = Some u
      ∧ 3 < Z.of_nat (length u)
      ∧ str_lower U password = a ++ str_lower U u ++ b.
Proof.
  rewrite password_errors_elem. cbn [violates].
  destruct username as [u |].
  - rewrite andb_true_iff, Z.ltb_lt, str_contains_infix. split.
    + intros [Hlen (a & b & Hab)]. by exists u, a, b.
    + intros (u' & a & b & [= <-] & Hlen & Hab). split; [done |].
      by exists a, b.
  - split; [done | by intros (? & ? & ? & ? & _)].
Qed.

(** X8.  A user name of at most three code points is not looked at: the
    collected errors are those of a call without user name, whatever the
    password. *)
Theorem short_username_ignored (U : UnicodeDB) (password u : list Z) :
  Z.of_nat (length u) ≤ 3 →
  BasePasswordValidator.password_errors U password (Some u)
  = BasePasswordValidator.password_errors U password None
  ∧ BasePasswordValidator.validate_password_strength U password (Some u)
    = BasePasswordValidator.validate_password_strength U password None.
Proof.
  intros Hlen.
  assert (BasePasswordValidator.password_errors U password (Some u)
          = BasePasswordValidator.password_errors U password None) as Heq.
  { unfold BasePasswordValidator.password_errors. cbv zeta.
    destruct u as [| c u]; [done |].
    by rewrite (proj2 (Z.ltb_ge 3 (Z.of_nat (length (c :: u)))) Hlen). }
  split; [done |].
  unfold BasePasswordValidator.validate_password_strength. by rewrite Heq.
Qed.

Lemma short_username_ignored_witness :
  BasePasswordValidator.password_errors basic_unicode (py "Bob-2024!x")
    (Some (py "bob"))
  = BasePasswordValidator.password_errors basic_unicode (py "Bob-2024!x") None.
Proof.
  apply (short_username_ignored basic_unicode (py "Bob-2024!x") (py "bob")).
  vm_compute. discriminate.
Defined.

(** X9.  Putting code points before or after a password never brings in a
    violation of the rules on length, uppercase letter, lowercase letter,
    digit or special character. *)
Theorem character_rules_monotone (U : UnicodeDB)
    (before password after : list Z) (username : option (list Z))
    (r : BasePasswordValidator.rule) :
  r ∈ [BasePasswordValidator.MinLength; BasePasswordValidator.Uppercase;
       BasePasswordValidator.Lowercase; BasePasswordValidator.Digit;
       BasePasswordValidator.SpecialChar] →
  r ∈ BasePasswordValidator.password_errors U (before ++ password ++ after)
        username →
  r ∈ BasePasswordValidator.password_errors U password username.
Proof.
  intros Hr. rewrite !password_errors_elem.
  rewrite !elem_of_cons, elem_of_nil in Hr.
  destruct Hr as [-> | [-> | [-> | [-> | [-> | []]]]]]; cbn [violates];
    rewrite !negb_true_iff.
  - rewrite !Z.leb_gt, !length_app. lia.
  - rewrite !existsb_app, !orb_false_iff. tauto.
  - rewrite !existsb_app, !orb_false_iff. tauto.
  - rewrite !existsb_app, !orb_false_iff. tauto.
  - rewrite !existsb_app, !orb_false_iff. tauto.
Qed.

Lemma character_rules_monotone_witness :
  BasePasswordValidator.Digit
    ∈ BasePasswordValidator.password_errors basic_unicode (py "bc") None.
Proof.
  apply (character_rules_monotone basic_unicode (py "a") (py "bc") (py "d")
           None BasePasswordValidator.Digit).
  - repeat first [apply list_elem_of_here | apply list_elem_of_further].
  - vm_compute.
    repeat first [apply list_elem_of_here | apply list_elem_of_further].
Defined.

(** X10.  [PasswordHasher.verify] accepts exactly what the library
    accepts: it returns [True] only if the library, given the plain
    password first and the hash second, returned [True]; it returns
    [False] only if the library returned [False] or raised
    [UnknownHashError]; and an exception leaves it only if the library
    raised that exception and it is not an [UnknownHashError]. *)
Theorem verify_accepts_what_the_library_accepts (pwd_context : CryptContext)
    (hashed_password plain_password : list Z) :
  (PasswordHasher.verify pwd_context hashed_password plain_password = Ok true
   ↔ ctx_verify pwd_context plain_password hashed_password = Ok true)
  ∧ (PasswordHasher.verify pwd_context hashed_password plain_password
     = Ok false
     ↔ ctx_verify pwd_context plain_password hashed_password = Ok false
       ∨ ∃ e, ctx_verify pwd_context plain_password hashed_password
              = Raise e
              ∧ isinstance_UnknownHashError e = true)
  ∧ (∀ e, PasswordHasher.verify pwd_context hashed_password plain_password
          = Raise e
          ↔ ctx_verify pwd_context plain_password hashed_password = Raise e
            ∧ isinstance_UnknownHashError e = false).
Proof.
  unfold PasswordHasher.verify.
  destruct (ctx_verify pwd_context plain_password hashed_password)
    as [b | e'].
  - split; [done |]. split.
    + split; [by left | by intros [? | (? & ? & _)]].
    + intros e. split; [done | by intros [? _]].
  - destruct (isinstance_UnknownHashError e') eqn:He.
    + split; [done |]. split.
      * split; [| done]. intros _. right. by exists e'.
      * intros e. split; [done |]. intros [[= <-] He']. congruence.
    + split; [done |]. split.
      * split; [done |]. intros [? | (e & [= <-] & He')]; congruence.
      * intros e. split; [by intros [= <-] | by intros [[= <-] _]].
Qed.

(** ** Sort fields and pagination *)

Section Dicts.
Context {K V : Type} `{EqDecision K}.

Lemma assoc_dict_set (k k' : K) (v : V) (d : list (K * V)) :
  assoc k (dict_set k' v d) = if decide (k' = k) then Some v else assoc k d.
Proof.
  induction d as [| [k0 v0] d IH]; simpl.
  - done.
  - destruct (decide (k0 = k')) as [-> | Hne]; simpl.
    + by destruct (decide (k' = k)).
    + destruct (decide (k0 = k)) as [-> | ?].
      * by destruct (decide (k' = k)); [subst |].
      * apply IH.
Qed.

Lemma assoc_elem_of (k : K) (v : V) (d : list (K * V)) :
  assoc k d = Some v → (k, v) ∈ d.
Proof.
  induction d as [| [k0 v0] d IH]; simpl; [done |].
  destruct (decide (k0 = k)) as [-> | ?].
  - intros [= ->]. apply list_elem_of_here.
  - intros H. apply list_elem_of_further. by apply IH.
Qed.
End Dicts.

(** What one pass over a namespace does to the entry of a name: the
    entry made by the pass, if there is one, replaces the one from
    before. *)
Lemma assoc_add_fields (k : string) (ns : list (string * attr))
    (fields : list (string * SortOption.t)) :
  assoc k (fold_left BaseSortFields.add_field ns fields)
  = match assoc k (fold_left BaseSortFields.add_field ns []) with
    | Some o => Some o
    | None => assoc k fields
    end.
Proof.
  revert fields.
  induction ns as [| [name a] ns IH]; intros fields; cbn [fold_left].
  - done.
  - rewrite IH.
    rewrite (IH (BaseSortFields.add_field [] (name, a))).
    destruct (assoc k (fold_left BaseSortFields.add_field ns [])); [done |].
    unfold BaseSortFields.add_field.
    destruct a as [o |]; [| done].
    destruct (negb (String.prefix "_" name)); [| done].
    rewrite assoc_dict_set. simpl.
    by destruct (decide (name = k)).
Qed.

Lemma assoc_add_classes (k : string) (classes : list (list (string * attr)))
    (fields : list (string * SortOption.t)) :
  assoc k (fold_left (λ fields base_cls,
                        fold_left BaseSortFields.add_field base_cls fields)
             classes fields)
  = match assoc k (fold_left (λ fields base_cls,
                                fold_left BaseSortFields.add_field base_cls
                                  fields) classes []) with
    | Some o => Some o
    | None => assoc k fields
    end.
Proof.
  revert fields.
  induction classes as [| ns classes IH]; intros fields; cbn [fold_left].
  - done.
  - rewrite IH.
    rewrite (IH (fold_left BaseSortFields.add_field ns [])).
    destruct (assoc k (fold_left _ classes [])); [done |].
    apply assoc_add_fields.
Qed.

Lemma get_all_fields_Derived (k : string) (own : list (string * attr))
    (base : sort_fields_class) :
  assoc k (BaseSortFields.get_all_fields (Derived own base))
  = match assoc k (BaseSortFields.get_all_fields base) with
    | Some o => Some o
    | None => assoc k (fold_left BaseSortFields.add_field own [])
    end.
Proof.
  unfold BaseSortFields.get_all_fields.
  cbn [BaseSortFields.mro fold_left].
  apply assoc_add_classes.
Qed.

(** X11.  In the dictionary of [get_all_fields] the classes further up the
    MRO have the last word: under every name that the base class gives a
    sort option, a derived class shows the option of the base class, also
    when its own namespace binds the name to another option (which
    attribute lookup, and so [get_default], would return). *)
Theorem inherited_sort_option_wins (own : list (string * attr))
    (base : sort_fields_class) (name : string) (o : SortOption.t) :
  assoc name (BaseSortFields.get_all_fields base) = Some o →
  assoc name (BaseSortFields.get_all_fields (Derived own base)) = Some o.
Proof. intros Hbase. by rewrite get_all_fields_Derived, Hbase. Qed.

Lemma inherited_sort_option_wins_witness :
  assoc "UPDATED_AT"
    (BaseSortFields.get_all_fields
       (Derived [("UPDATED_AT",
                  ASortOption {| SortOption.field := py "modified";
                                 SortOption.description := "by change" |})]
          BaseSortFields))
  = Some BaseSortFields.UPDATED_AT
  ∧ BaseSortFields.get_default
      (Derived [("UPDATED_AT",
                 ASortOption {| SortOption.field := py "modified";
                                SortOption.description := "by change" |})]
         BaseSortFields)
    = Ok (ASortOption {| SortOption.field := py "modified";
                         SortOption.description := "by change" |}).
Proof.
  split; [| reflexivity].
  apply (inherited_sort_option_wins _ BaseSortFields "UPDATED_AT"
           BaseSortFields.UPDATED_AT).
  reflexivity.
Defined.

Lemma get_all_fields_base_entries (cls : sort_fields_class) :
  assoc "CREATED_AT" (BaseSortFields.get_all_fields cls)
  = Some BaseSortFields.CREATED_AT
  ∧ assoc "UPDATED_AT" (BaseSortFields.get_all_fields cls)
    = Some BaseSortFields.UPDATED_AT.
Proof.
  induction cls as [| own base [IHc IHu]].
  - split; reflexivity.
  - by rewrite !get_all_fields_Derived, IHc, IHu.
Qed.

Lemma is_valid_field_of_entry (cls : sort_fields_class) (name : string)
    (o : SortOption.t) :
  assoc name (BaseSortFields.get_all_fields cls) = Some o →
  BaseSortFields.is_valid_field cls (SortOption.field o) = true.
Proof.
  intros H. apply bool_decide_eq_true.
  unfold BaseSortFields.get_field_values.
  apply list_elem_of_fmap. exists (name, o). split; [done |].
  by apply assoc_elem_of.
Qed.



(** The classes of the registry do not rebind [UPDATED_AT]. *)
Lemma registry_classes (entity_name : list Z) :
  ∃ cls,
    SortFieldRegistry.get_sort_field_class entity_name = Ok cls
    ∧ cls ∈ [WorkspaceSortFields; UserSortFields; SortFields]
    ∧ (entity_name ∉ [py "Workspace"; py "User"] → cls = SortFields).
Proof.
  unfold SortFieldRegistry.get_sort_field_class, SortFieldRegistry._registry.
  cbn [assoc].
  destruct (decide (py "default" = py "default")) as [_ | []]; [| done].
  destruct (decide (py "Workspace" = entity_name)) as [<- | ?].
  { exists WorkspaceSortFields. split; [done |]. split.
    - apply list_elem_of_here.
    - intros Hout. exfalso. apply Hout, list_elem_of_here. }
  destruct (decide (py "User" = entity_name)) as [<- | ?].
  { exists UserSortFields. split; [done |]. split.
    - apply list_elem_of_further, list_elem_of_here.
    - intros Hout. exfalso.
      apply Hout, list_elem_of_further, list_elem_of_here. }
  exists SortFields. split; [by destruct (decide (py "default" = entity_name)) |].
  split; [| done].
  apply list_elem_of_further, list_elem_of_further, list_elem_of_here.
Qed.

(** X13.  [PaginationParams] can be built for every entity name and every
    requested sort field; the sort field it keeps is valid for the class of
    the entity, it is the requested one when that is valid, and
    ["updated_at"] otherwise.  An entity name outside the registry gets the
    fields of [SortFields]. *)
Theorem pagination_sort_field_valid (skip limit : Z) (sort_by : list Z)
    (sort_desc : bool) (entity_name : list Z) :
  ∃ cls params,
    SortFieldRegistry.get_sort_field_class entity_name = Ok cls
    ∧ PaginationParams.init skip limit sort_by sort_desc entity_name
      = Ok params
    ∧ BaseSortFields.is_valid_field cls (PaginationParams.sort_by params)
      = true
    ∧ PaginationParams.sort_by params
      = (if BaseSortFields.is_valid_field cls sort_by then sort_by
         else py "updated_at")
    ∧ PaginationParams.skip params = skip
    ∧ PaginationParams.limit params = limit
    ∧ PaginationParams.sort_desc params = sort_desc
    ∧ (entity_name ∉ [py "Workspace"; py "User"] → cls = SortFields).
Proof.
  destruct (registry_classes entity_name) as (cls & Hcls & Hin & Hout).
  exists cls.
  assert (BaseSortFields.get_default cls
          = Ok (ASortOption BaseSortFields.UPDATED_AT)) as Hdefault.
  { rewrite !elem_of_cons, elem_of_nil in Hin.
    by destruct Hin as [-> | [-> | [-> | []]]]. }
  pose proof (is_valid_field_of_entry cls _ _
                (proj2 (get_all_fields_base_entries cls))) as Hupdated.
  unfold PaginationParams.init. rewrite Hcls. cbn [rbind].
  unfold BaseSortFields.get_field_or_default. rewrite Hdefault. cbn [rbind].
  destruct (BaseSortFields.is_valid_field cls sort_by) eqn:Hvalid;
    cbn [rbind]; eexists; (split; [done |]); (split; [reflexivity |]);
    cbn [PaginationParams.sort_by PaginationParams.skip
         PaginationParams.limit PaginationParams.sort_desc];
    repeat (split; [done |]); done.
Qed.

(** X14.  The page number: with a positive limit the pages are numbered
    from the block of [limit] items that holds item [skip], page 1 holding
    the items [0 .. limit - 1]; a limit of zero makes the property raise
    [ZeroDivisionError]. *)
Theorem page_number_bounds (self : PaginationParams.t) :
  (PaginationParams.limit self = 0 →
   PaginationParams.page self = Raise (OtherError "ZeroDivisionError"))
  ∧ (0 < PaginationParams.limit self →
     ∃ page,
       PaginationParams.page self = Ok page
       ∧ (page - 1) * PaginationParams.limit self ≤ PaginationParams.skip self
       ∧ PaginationParams.skip self < page * PaginationParams.limit self
       ∧ (1 ≤ page ↔ 0 ≤ PaginationParams.skip self)).
Proof.
  unfold PaginationParams.page. split.
  - by intros ->.
  - intros Hpos.
    destruct (Z.eqb_spec (PaginationParams.limit self) 0) as [? | _];
      [lia |].
    eexists. split; [done |].
    pose proof (Z.div_mod (PaginationParams.skip self)
                  (PaginationParams.limit self)).
    pose proof (Z.mod_pos_bound (PaginationParams.skip self)
                  (PaginationParams.limit self) Hpos).
    pose proof (Z.div_pos (PaginationParams.skip self)
                  (PaginationParams.limit self)).
    pose proof (Z.div_lt_upper_bound (PaginationParams.skip self)
                  (PaginationParams.limit self) 0 Hpos).
    repeat split; nia.
Qed.

Lemma page_number_bounds_witness :
  ∃ page,
    PaginationParams.page
      {| PaginationParams.skip := 25; PaginationParams.limit := 10;
         PaginationParams.sort_by := py "updated_at";
         PaginationParams.sort_desc := true |} = Ok page
    ∧ (page - 1) * 10 ≤ 25 ∧ 25 < page * 10 ∧ (1 ≤ page ↔ 0 ≤ 25).
Proof.
  pose proof (page_number_bounds
                {| PaginationParams.skip := 25; PaginationParams.limit := 10;
                   PaginationParams.sort_by := py "updated_at";
                   PaginationParams.sort_desc := true |}) as [_ H].
  apply H. simpl. lia.
Defined.

(** ** The activity middleware *)

Lemma split_on_head (sep : Z) (s : list Z) :
  ∃ w ws,
    split_on sep s = w :: ws
    ∧ (sep ∉ w)
    ∧ ((ws = [] ∧ s = w) ∨ (∃ r, s = w ++ sep :: r ∧ ws = split_on sep r)).
Proof.
  induction s as [| c s (w & ws & Hs & Hw & Hrest)]; simpl.
  - exists [], []. split; [done |]. split; [apply not_elem_of_nil |].
    by left.
  - destruct (Z.eqb_spec c sep) as [-> | Hne].
    + exists [], (split_on sep s). split; [done |].
      split; [apply not_elem_of_nil |]. right. by exists s.
    + rewrite Hs. exists (c :: w), ws. split; [done |]. split.
      * rewrite not_elem_of_cons. split; [congruence | done].
      * destruct Hrest as [[-> ->] | (r & -> & ->)]; [by left |].
        right. by exists r.
Qed.

Lemma first_separator_unique (sep : Z) (a a' b b' : list Z) :
  sep ∉ a → sep ∉ a' → a ++ sep :: b = a' ++ sep :: b' → a = a' ∧ b = b'.
Proof.
  revert a'. induction a as [| x a IH]; intros [| x' a'] Ha Ha'; simpl.
  - by intros [= ->].
  - intros [= <- _]. exfalso. apply Ha', list_elem_of_here.
  - intros [= -> _]. exfalso. apply Ha, list_elem_of_here.
  - intros [= -> Heq].
    apply not_elem_of_cons in Ha as [_ Ha].
    apply not_elem_of_cons in Ha' as [_ Ha'].
    destruct (IH a' Ha Ha' Heq) as [-> ->]. done.
Qed.

(** Behind the guard there is an element with index 1. *)
Lemma bearer_token_behind_guard (TOKEN_TYPE auth_header : list Z) :
  startswith (TOKEN_TYPE ++ py " ") auth_header = true →
  ∃ token, ActivityMiddleware.bearer_token auth_header = Done token.
Proof.
  intros Hstart. apply startswith_prefix in Hstart as [b Hb].
  rewrite <- app_assoc in Hb. change (py " " ++ b) with (32 :: b) in Hb.
  unfold ActivityMiddleware.bearer_token.
  destruct (split_on_head 32 auth_header) as (w & ws & Hs & Hw & Hrest).
  destruct Hrest as [[-> ->] | (r & Hr & ->)].
  { exfalso. apply Hw. rewrite Hb, elem_of_app. right.
    apply list_elem_of_here. }
  destruct (split_on_head 32 r) as (w' & ws' & Hs' & _).
  rewrite Hs, Hs'. by exists w'.
Qed.

(** X15.  Behind the guard [auth_header.startswith(TOKEN_TYPE + " ")] the
    index [1] of the split header is always there: the token is a string
    without a space, and for a token type without a space it is what
    stands between the first space of the header and the next one (or the
    end). *)
Theorem bearer_token_defined (TOKEN_TYPE auth_header : list Z) :
  startswith (TOKEN_TYPE ++ py " ") auth_header = true →
  ∃ token,
    ActivityMiddleware.bearer_token auth_header = Done token
    ∧ (32 ∉ token)
    ∧ (32 ∉ TOKEN_TYPE →
       ∃ rest,
         auth_header = TOKEN_TYPE ++ py " " ++ token ++ rest
         ∧ (rest = [] ∨ ∃ r, rest = 32 :: r)).
Proof.
  intros Hstart. apply startswith_prefix in Hstart as [b Hb].
  rewrite <- app_assoc in Hb. change (py " " ++ b) with (32 :: b) in Hb.
  unfold ActivityMiddleware.bearer_token.
  destruct (split_on_head 32 auth_header) as (w & ws & Hs & Hw & Hrest).
  destruct Hrest as [[-> ->] | (r & Hr & ->)].
  { exfalso. apply Hw. rewrite Hb, elem_of_app. right.
    apply list_elem_of_here. }
  destruct (split_on_head 32 r) as (w' & ws' & Hs' & Hw' & Hrest').
  rewrite Hs, Hs'. simpl. exists w'. split; [done |]. split; [done |].
  intros Htype.
  assert (TOKEN_TYPE = w ∧ b = r) as [-> ->].
  { apply (first_separator_unique 32); [done | done |]. by rewrite <- Hb. }
  destruct Hrest' as [[_ Hr'] | (r' & Hr' & _)].
  - exists []. split; [| by left]. rewrite Hr, app_nil_r. by rewrite Hr' at 1.
  - exists (32 :: r'). split; [| right; by exists r'].
    rewrite Hr. by rewrite Hr' at 1.
Qed.

Lemma bearer_token_defined_witness :
  ∃ token,
    ActivityMiddleware.bearer_token (py "Bearer abc.def.ghi trailing")
    = Done token
    ∧ (32 ∉ token)
    ∧ (32 ∉ py "Bearer" →
       ∃ rest,
         py "Bearer abc.def.ghi trailing"
         = py "Bearer" ++ py " " ++ token ++ rest
         ∧ (rest = [] ∨ ∃ r, rest = 32 :: r)).
Proof.
  apply (bearer_token_defined (py "Bearer") (py "Bearer abc.def.ghi trailing")).
  reflexivity.
Defined.

(** X16.  The mask written to the log shows the first five and the last
    five code points of a token of more than ten and nothing of what
    stands between them; it is never longer than thirteen code points. *)
Theorem masked_token_hides_middle (first middle last : list Z) :
  length first = 5%nat → length last = 5%nat → middle ≠ [] →
  ActivityMiddleware.masked_token (first ++ middle ++ last)
  = first ++ py "..." ++ last
  ∧ ∀ token, (length (ActivityMiddleware.masked_token token) ≤ 13)%nat.
Proof.
  intros Hf Hl Hm. split.
  - unfold ActivityMiddleware.masked_token.
    assert (length middle ≠ 0%nat) by (by destruct middle).
    rewrite !length_app, Hf, Hl.
    destruct (Z.ltb_spec 10 (Z.of_nat (5 + (length middle + 5)))); [| lia].
    rewrite take_app_length' by done.
    replace (5 + (length middle + 5) - 5)%nat
      with (length (first ++ middle)) by (rewrite length_app; lia).
    by rewrite (app_assoc first middle last), drop_app_length.
  - intros token. unfold ActivityMiddleware.masked_token.
    destruct (Z.ltb_spec 10 (Z.of_nat (length token))); [| simpl; lia].
    rewrite !length_app, length_take, length_drop.
    change (length (py "...")) with 3%nat. lia.
Qed.

Lemma masked_token_hides_middle_witness :
  ActivityMiddleware.masked_token (py "abcde" ++ py "SECRET" ++ py "vwxyz")
  = py "abcde" ++ py "..." ++ py "vwxyz".
Proof.
  apply (masked_token_hides_middle (py "abcde") (py "SECRET") (py "vwxyz"));
    done.
Defined.

Section Activity.
Context {R : Type} (TOKEN_TYPE : list Z) (redis : ActivityMiddleware.Redis).
Context (authorization : option (list Z)) (call_next : MW (response R)).

(** The branch of [dispatch] without the bearer prefix. *)
Lemma dispatch_without_bearer :
  startswith (TOKEN_TYPE ++ py " ") (default [] authorization) = false →
  ActivityMiddleware.dispatch TOKEN_TYPE redis authorization call_next
  = call_next.
Proof.
  intros Hstart. unfold ActivityMiddleware.dispatch. rewrite Hstart.
  simpl. destruct call_next as [t [r | e]]; simpl; [| done].
  by rewrite app_nil_r.
Qed.

(** X17.  A request without the bearer prefix in its [Authorization]
    header goes through the activity middleware as if it were not there:
    no call to Redis, and trace and outcome of the rest of the stack. *)
Theorem activity_transparent_without_bearer :
  startswith (TOKEN_TYPE ++ py " ") (default [] authorization) = false →
  ActivityMiddleware.dispatch TOKEN_TYPE redis authorization call_next
  = call_next.
Proof. apply dispatch_without_bearer. Qed.

(** X18.  With the bearer prefix, once the connection is made and as long
    as closing it works, nothing that the activity store does or fails to
    do reaches the request: the connection is closed, exactly once and
    after the last call to the store, the rest of the stack runs, and its
    outcome is the outcome of [dispatch]. *)
Theorem activity_store_errors_swallowed :
  startswith (TOKEN_TYPE ++ py " ") (default [] authorization) = true →
  ActivityMiddleware.from_url redis = Done tt →
  ActivityMiddleware.client_close redis = Done tt →
  ∃ store,
    Forall storage_events store
    ∧ ActivityMiddleware.dispatch TOKEN_TYPE redis authorization call_next
      = (RedisFromUrl :: store ++ RedisClientClose :: call_next.1,
         call_next.2).
Proof.
  intros Hstart Hconnect Hclose.
  destruct (bearer_token_behind_guard _ _ Hstart) as (token & Htoken).
  unfold ActivityMiddleware.dispatch.
  rewrite Hstart, Htoken, Hconnect, Hclose.
  destruct call_next as [t r]. simpl.
  destruct (ActivityMiddleware.update_last_activity redis token)
    as [[] | e]; simpl.
  2:{ exists [UpdateLastActivity token]. split; [by repeat constructor |].
      destruct r; simpl; by rewrite ?app_nil_r. }
  destruct (ActivityMiddleware.get_user_by_token redis token)
    as [[user |] | e]; simpl.
  - destruct (truthy (user_id user)); simpl.
    + exists [UpdateLastActivity token; GetUserByToken token;
              SetOnlineStatus (user_id user) true].
      split; [by repeat constructor |].
      destruct (ActivityMiddleware.set_online_status redis (user_id user) true)
        as [[] | e]; simpl; destruct r; simpl; by rewrite ?app_nil_r.
    + exists [UpdateLastActivity token; GetUserByToken token].
      split; [by repeat constructor |].
      destruct r; simpl; by rewrite ?app_nil_r.
  - exists [UpdateLastActivity token; GetUserByToken token].
    split; [by repeat constructor |].
    destruct r; simpl; by rewrite ?app_nil_r.
  - exists [UpdateLastActivity token; GetUserByToken token].
    split; [by repeat constructor |].
    destruct r; simpl; by rewrite ?app_nil_r.
Qed.

(** X19.  With the bearer prefix, a connection that cannot be made or
    cannot be closed fails the request: the exception of Redis is the
    outcome of [dispatch], and the rest of the stack is not run. *)
Theorem activity_redis_outage_fails_request (e : raised) :
  startswith (TOKEN_TYPE ++ py " ") (default [] authorization) = true →
  (ActivityMiddleware.from_url redis = Fail e →
   ActivityMiddleware.dispatch TOKEN_TYPE redis authorization call_next
   = ([RedisFromUrl], Fail e))
  ∧ (ActivityMiddleware.from_url redis = Done tt →
     ActivityMiddleware.client_close redis = Fail e →
     ∃ store,
       Forall storage_events store
       ∧ ActivityMiddleware.dispatch TOKEN_TYPE redis authorization call_next
         = (RedisFromUrl :: store ++ [RedisClientClose], Fail e)).
Proof.
  intros Hstart.
  destruct (bearer_token_behind_guard _ _ Hstart) as (token & Htoken).
  unfold ActivityMiddleware.dispatch. rewrite Hstart, Htoken. split.
  - by intros ->.
  - intros -> ->. simpl.
    destruct (ActivityMiddleware.update_last_activity redis token)
      as [[] | e1]; simpl.
    2:{ by exists [UpdateLastActivity token]; split; [repeat constructor |]. }
    destruct (ActivityMiddleware.get_user_by_token redis token)
      as [[user |] | e2]; simpl.
    + destruct (truthy (user_id user)); simpl.
      * exists [UpdateLastActivity token; GetUserByToken token;
                SetOnlineStatus (user_id user) true].
        split; [by repeat constructor |].
        by destruct (ActivityMiddleware.set_online_status redis
                       (user_id user) true) as [[] | e3].
      * by exists [UpdateLastActivity token; GetUserByToken token];
          split; [repeat constructor |].
    + by exists [UpdateLastActivity token; GetUserByToken token];
        split; [repeat constructor |].
    + by exists [UpdateLastActivity token; GetUserByToken token];
        split; [repeat constructor |].
Qed.

(** X20.  The middleware sets a status only to online, only for a user
    that the store returned for the token of the request, with a truthy
    id, and only after the update of the last activity went through. *)
Theorem online_status_only_for_known_user (id : value) (online : bool) :
  (∀ i o, SetOnlineStatus i o ∉ call_next.1) →
  SetOnlineStatus id online
    ∈ (ActivityMiddleware.dispatch TOKEN_TYPE redis authorization
         call_next).1 →
  online = true
  ∧ truthy id = true
  ∧ ∃ token user,
      ActivityMiddleware.bearer_token (default [] authorization) = Done token
      ∧ ActivityMiddleware.update_last_activity redis token = Done tt
      ∧ ActivityMiddleware.get_user_by_token redis token = Done (Some user)
      ∧ user_id user = id.
Proof.
  intros Hnext.
  destruct (startswith (TOKEN_TYPE ++ py " ") (default [] authorization))
    eqn:Hstart.
  2:{ rewrite dispatch_without_bearer by done.
      intros H. by apply Hnext in H. }
  destruct (bearer_token_behind_guard _ _ Hstart) as (token & Htoken).
  unfold ActivityMiddleware.dispatch. rewrite Hstart, Htoken.
  destruct call_next as [t r]. simpl in Hnext. simpl.
  destruct (ActivityMiddleware.from_url redis) as [[] | e0]; simpl.
  2:{ rewrite elem_of_cons, elem_of_nil. by intros [? | []]. }
  assert (∀ l, SetOnlineStatus id online ∈ l ++ t →
               SetOnlineStatus id online ∈ l) as Hdrop.
  { intros l. rewrite elem_of_app. intros [? | H]; [done |].
    by apply Hnext in H. }
  destruct (ActivityMiddleware.update_last_activity redis token)
    as [[] | e1] eqn:Hupdate; simpl.
  2:{ destruct (ActivityMiddleware.client_close redis) as [[] | e4]; simpl;
        [destruct r; simpl |];
        rewrite ?app_nil_r, ?elem_of_cons, ?elem_of_app, ?elem_of_cons,
          ?elem_of_nil;
        intros H; exfalso; intuition (try discriminate; eauto). }
  destruct (ActivityMiddleware.get_user_by_token redis token)
    as [[user |] | e2] eqn:Huser; simpl.
  - destruct (truthy (user_id user)) eqn:Hid; simpl.
    + assert (SetOnlineStatus id online
                ∈ [RedisFromUrl; UpdateLastActivity token;
                   GetUserByToken token;
                   SetOnlineStatus (user_id user) true; RedisClientClose]
              → online = true ∧ truthy id = true
                ∧ ∃ token0 user0,
                    Done token = Done token0
                    ∧ ActivityMiddleware.update_last_activity redis token0
                      = Done tt
                    ∧ ActivityMiddleware.get_user_by_token redis token0
                      = Done (Some user0)
                    ∧ user_id user0 = id) as Hfound.
      { rewrite !elem_of_cons, elem_of_nil.
        intros [? | [? | [? | [[= -> ->] | [? | []]]]]]; try done.
        split; [done |]. split; [done |]. by exists token, user. }
      destruct (ActivityMiddleware.set_online_status redis (user_id user) true)
        as [[] | e3]; simpl;
        (destruct (ActivityMiddleware.client_close redis) as [[] | e4]; simpl;
         [destruct r; simpl |]);
        rewrite ?app_nil_r; intros H; apply Hfound;
        rewrite ?elem_of_cons, ?elem_of_app, ?elem_of_cons, ?elem_of_nil in H;
        rewrite !elem_of_cons, elem_of_nil;
        intuition (try discriminate; try (exfalso; eauto; fail)).
    + destruct (ActivityMiddleware.client_close redis) as [[] | e4]; simpl;
        [destruct r; simpl |];
        rewrite ?app_nil_r, ?elem_of_cons, ?elem_of_app, ?elem_of_cons,
          ?elem_of_nil;
        intros H; exfalso; intuition (try discriminate; eauto).
  - destruct (ActivityMiddleware.client_close redis) as [[] | e4]; simpl;
      [destruct r; simpl |];
      rewrite ?app_nil_r, ?elem_of_cons, ?elem_of_app, ?elem_of_cons,
        ?elem_of_nil;
      intros H; exfalso; intuition (try discriminate; eauto).
  - destruct (ActivityMiddleware.client_close redis) as [[] | e4]; simpl;
      [destruct r; simpl |];
      rewrite ?app_nil_r, ?elem_of_cons, ?elem_of_app, ?elem_of_cons,
        ?elem_of_nil;
      intros H; exfalso; intuition (try discriminate; eauto).
Qed.
End Activity.

Lemma activity_transparent_without_bearer_witness :
  ActivityMiddleware.dispatch (py "Bearer") unreachable_redis
    (Some (py "Basic YWRtaW46czNjcmV0")) sample_app
  = sample_app.
Proof.
  apply (activity_transparent_without_bearer (py "Bearer") unreachable_redis
           (Some (py "Basic YWRtaW46czNjcmV0")) sample_app).
  reflexivity.
Defined.

Lemma activity_store_errors_swallowed_witness :
  ∃ store,
    Forall storage_events store
    ∧ ActivityMiddleware.dispatch (py "Bearer") sample_redis
        (Some (py "Bearer abc.def.ghi")) sample_app
      = (RedisFromUrl :: store ++ RedisClientClose :: sample_app.1,
         sample_app.2).
Proof.
  apply (activity_store_errors_swallowed (py "Bearer") sample_redis
           (Some (py "Bearer abc.def.ghi")) sample_app); reflexivity.
Defined.

Lemma activity_redis_outage_fails_request_witness :
  ActivityMiddleware.dispatch (py "Bearer") unreachable_redis
    (Some (py "Bearer abc.def.ghi")) sample_app
  = ([RedisFromUrl], Fail (RaisedOther (OtherError "ConnectionError"))).
Proof.
  pose proof (activity_redis_outage_fails_request (py "Bearer")
                unreachable_redis (Some (py "Bearer abc.def.ghi")) sample_app
                (RaisedOther (OtherError "ConnectionError")) eq_refl)
    as [H _].
  apply H. reflexivity.
Defined.

Lemma online_status_only_for_known_user_witness :
  true = true
  ∧ truthy (VInt 7) = true
  ∧ ∃ token user,
      ActivityMiddleware.bearer_token
        (default [] (Some (py "Bearer abc.def.ghi"))) = Done token
      ∧ ActivityMiddleware.update_last_activity sample_redis token = Done tt
      ∧ ActivityMiddleware.get_user_by_token sample_redis token
        = Done (Some user)
      ∧ user_id user = VInt 7.
Proof.
  apply (online_status_only_for_known_user (py "Bearer") sample_redis
           (Some (py "Bearer abc.def.ghi")) sample_app (VInt 7) true).
  - intros i o. unfold sample_app, mw_call. simpl.
    rewrite elem_of_cons, elem_of_nil. by intros [? | []].
  - vm_compute.
    repeat first [apply list_elem_of_here | apply list_elem_of_further].
Defined.

(** ** The logging middleware *)

(** X21.  [LoggingMiddleware] adds no call of its own and lets no
    [HTTPException] through: a response passes as it is, a
    [BaseAPIException] and any other [HTTPException] become a
    [JSONResponse] with the status code of the exception, and only an
    exception that is not an [HTTPException] leaves [dispatch], unchanged. *)
Theorem logging_lets_no_http_exception_out {R : Type}
    (py_str : value → list Z) (call_next : MW (response R)) :
  (LoggingMiddleware.dispatch py_str call_next).1 = call_next.1
  ∧ (∀ e, (LoggingMiddleware.dispatch py_str call_next).2 = Fail e →
          call_next.2 = Fail e ∧ ∃ x, e = RaisedOther x)
  ∧ (∀ r, call_next.2 = Done r →
          (LoggingMiddleware.dispatch py_str call_next).2 = Done r)
  ∧ (∀ status_code detail,
       call_next.2 = Fail (RaisedAPI status_code detail) →
       (LoggingMiddleware.dispatch py_str call_next).2
       = Done (JSONResponse status_code detail))
  ∧ (∀ status_code detail,
       call_next.2 = Fail (RaisedHTTP status_code detail) →
       (LoggingMiddleware.dispatch py_str call_next).2
       = Done (JSONResponse status_code (py_str detail))).
Proof.
  unfold LoggingMiddleware.dispatch.
  destruct call_next as [t [r | [s d | s d | x]]]; simpl;
    rewrite ?app_nil_r; (split; [done |]);
    (split; [intros e [= <-] || intros e [=]; eauto |]);
    (split; [by intros ? [= <-] || by intros ? [=] |]);
    split; intros ? ? [=]; by subst.
Qed.

Lemma logging_lets_no_http_exception_out_witness :
  (LoggingMiddleware.dispatch sample_py_str failing_app).2
  = Done (JSONResponse 404 (py "not found")).
Proof.
  pose proof (logging_lets_no_http_exception_out sample_py_str failing_app)
    as (_ & _ & _ & H & _).
  apply H. reflexivity.
Defined.

(** ** The documentation guard *)

Section Docs.
Context {Clock : Type} (within_hour : Clock → Clock → bool).
Context (security : DocsAuthMiddleware.Request → res (list Z * list Z)).
Context {R : Type}.
Context (settings : DocsAuthMiddleware.DocsSettings).

Lemma check_credentials_cache (auth_cache : gmap (list Z) Clock)
    (current_time : Clock) (request : DocsAuthMiddleware.Request)
    (client_ip : list Z) (call_next : MW (response R)) :
  (DocsAuthMiddleware.check_credentials security settings auth_cache
     current_time request client_ip call_next).1 = auth_cache
  ∨ ((DocsAuthMiddleware.check_credentials security settings auth_cache
        current_time request client_ip call_next).1
     = <[client_ip := current_time]> auth_cache
     ∧ security request
       = Done (DocsAuthMiddleware.DOCS_USERNAME settings,
               DocsAuthMiddleware.DOCS_PASSWORD settings)).
Proof.
  unfold DocsAuthMiddleware.check_credentials.
  destruct (DocsAuthMiddleware.authorization request) as [[| c h] |];
    [by left | | by left].
  destruct (security request) as [[username password] | e]; [| by left].
  destruct (bool_decide_reflect
              (username = DocsAuthMiddleware.DOCS_USERNAME settings))
    as [-> | ?]; [| by left].
  destruct (bool_decide_reflect
              (password = DocsAuthMiddleware.DOCS_PASSWORD settings))
    as [-> | ?]; [| by left].
  by right.
Qed.

(** X22.  The cache of authenticated addresses is written in one case
    only: a request for a documentation path, with the documentation
    switched on, whose credentials are the configured user name and
    password; the entry is the address of the client with the time of the
    request.  In every other case the cache stays as it was; no entry is
    ever removed. *)
Theorem docs_cache_written_on_valid_credentials_only
    (auth_cache : gmap (list Z) Clock) (current_time : Clock)
    (request : DocsAuthMiddleware.Request) (call_next : MW (response R)) :
  (DocsAuthMiddleware.dispatch within_hour security settings auth_cache
     current_time request call_next).1 = auth_cache
  ∨ ∃ client_ip,
      DocsAuthMiddleware.client_host request = Some client_ip
      ∧ (DocsAuthMiddleware.dispatch within_hour security settings auth_cache
           current_time request call_next).1
        = <[client_ip := current_time]> auth_cache
      ∧ security request
        = Done (DocsAuthMiddleware.DOCS_USERNAME settings,
                DocsAuthMiddleware.DOCS_PASSWORD settings)
      ∧ DocsAuthMiddleware.DOCS_ACCESS settings = true
      ∧ DocsAuthMiddleware.path request ∈ DocsAuthMiddleware.docs_paths.
Proof.
  unfold DocsAuthMiddleware.dispatch.
  destruct (bool_decide_reflect
              (DocsAuthMiddleware.path request
                 ∈ DocsAuthMiddleware.docs_paths)) as [Hpath | ?];
    [| by left].
  destruct (DocsAuthMiddleware.DOCS_ACCESS settings) eqn:Haccess;
    [| by left].
  simpl.
  destruct (DocsAuthMiddleware.client_host request) as [client_ip |];
    [| by left].
  assert (∀ m,
            m = DocsAuthMiddleware.check_credentials security settings
                  auth_cache current_time request client_ip call_next →
            m.1 = auth_cache
            ∨ ∃ client_ip0,
                Some client_ip = Some client_ip0
                ∧ m.1 = <[client_ip0 := current_time]> auth_cache
                ∧ security request
                  = Done (DocsAuthMiddleware.DOCS_USERNAME settings,
                          DocsAuthMiddleware.DOCS_PASSWORD settings)
                ∧ true = true
                ∧ DocsAuthMiddleware.path request
                    ∈ DocsAuthMiddleware.docs_paths) as Hcheck.
  { intros m ->.
    destruct (check_credentials_cache auth_cache current_time request
                client_ip call_next) as [? | [? ?]]; [by left |].
    right. by exists client_ip. }
  destruct (auth_cache !! client_ip) as [timestamp |]; [| by apply Hcheck].
  destruct (within_hour current_time timestamp); [by left |].
  by apply Hcheck.
Qed.

(** X23.  After a request with the configured credentials, every request
    for the documentation from the same address goes through as long as
    the clock test finds the entry fresh: the header of the later request
    is not read and the credentials are not checked. *)
Theorem docs_address_stays_authenticated
    (auth_cache : gmap (list Z) Clock) (first_time later_time : Clock)
    (first later : DocsAuthMiddleware.Request) (client_ip : list Z)
    (c : Z) (header : list Z) (first_next later_next : MW (response R)) :
  DocsAuthMiddleware.DOCS_ACCESS settings = true →
  DocsAuthMiddleware.path first ∈ DocsAuthMiddleware.docs_paths →
  DocsAuthMiddleware.path later ∈ DocsAuthMiddleware.docs_paths →
  DocsAuthMiddleware.client_host first = Some client_ip →
  DocsAuthMiddleware.client_host later = Some client_ip →
  (∀ timestamp, auth_cache !! client_ip = Some timestamp →
                within_hour first_time timestamp = false) →
  DocsAuthMiddleware.authorization first = Some (c :: header) →
  security first
  = Done (DocsAuthMiddleware.DOCS_USERNAME settings,
          DocsAuthMiddleware.DOCS_PASSWORD settings) →
  within_hour later_time first_time = true →
  DocsAuthMiddleware.dispatch within_hour security settings
    (DocsAuthMiddleware.dispatch within_hour security settings auth_cache
       first_time first first_next).1
    later_time later later_next
  = (<[client_ip := first_time]> auth_cache, later_next).
Proof.
  intros Haccess Hfirst Hlater Hhost1 Hhost2 Hstale Hheader Hsec Hfresh.
  assert ((DocsAuthMiddleware.dispatch within_hour security settings
             auth_cache first_time first first_next).1
          = <[client_ip := first_time]> auth_cache) as ->.
  { unfold DocsAuthMiddleware.dispatch.
    rewrite bool_decide_eq_true_2 by done. rewrite Haccess, Hhost1. simpl.
    assert ((DocsAuthMiddleware.check_credentials security settings
               auth_cache first_time first client_ip first_next).1
            = <[client_ip := first_time]> auth_cache) as Hcheck.
    { unfold DocsAuthMiddleware.check_credentials.
      rewrite Hheader, Hsec.
      by rewrite !bool_decide_eq_true_2 by done. }
    destruct (auth_cache !! client_ip) as [timestamp |] eqn:Hentry;
      [| done].
    by rewrite (Hstale timestamp eq_refl). }
  unfold DocsAuthMiddleware.dispatch.
  rewrite bool_decide_eq_true_2 by done. rewrite Haccess, Hhost2. simpl.
  by rewrite lookup_insert_eq, Hfresh.
Qed.

(** X24.  With the configured credentials and no fresh entry in the
    cache, an [HTTPException] raised further down the stack comes out of
    the guard as the 401 challenge, and the address is in the cache all
    the same; with a fresh entry the same exception passes the guard
    unchanged. *)
Theorem docs_downstream_http_error_becomes_challenge
    (auth_cache : gmap (list Z) Clock) (current_time : Clock)
    (request : DocsAuthMiddleware.Request) (client_ip : list Z)
    (c : Z) (header : list Z) (trace : list mw_event) (e : raised) :
  DocsAuthMiddleware.DOCS_ACCESS settings = true →
  DocsAuthMiddleware.path request ∈ DocsAuthMiddleware.docs_paths →
  DocsAuthMiddleware.client_host request = Some client_ip →
  DocsAuthMiddleware.authorization request = Some (c :: header) →
  security request
  = Done (DocsAuthMiddleware.DOCS_USERNAME settings,
          DocsAuthMiddleware.DOCS_PASSWORD settings) →
  (∀ x, e ≠ RaisedOther x) →
  ((∀ timestamp, auth_cache !! client_ip = Some timestamp →
                 within_hour current_time timestamp = false) →
   DocsAuthMiddleware.dispatch within_hour security settings auth_cache
     current_time request ((trace, Fail e) : MW (response R))
   = (<[client_ip := current_time]> auth_cache,
      (HTTPBasicCall :: trace, Done DocsAuthMiddleware.challenge)))
  ∧ (∀ timestamp,
       auth_cache !! client_ip = Some timestamp →
       within_hour current_time timestamp = true →
       DocsAuthMiddleware.dispatch within_hour security settings auth_cache
         current_time request ((trace, Fail e) : MW (response R))
       = (auth_cache, (trace, Fail e))).
Proof.
  intros Haccess Hpath Hhost Hheader Hsec He.
  unfold DocsAuthMiddleware.dispatch.
  rewrite bool_decide_eq_true_2 by done. rewrite Haccess, Hhost. simpl.
  split.
  - intros Hstale.
    assert (DocsAuthMiddleware.check_credentials security settings
              auth_cache current_time request client_ip
              ((trace, Fail e) : MW (response R))
            = (<[client_ip := current_time]> auth_cache,
               (HTTPBasicCall :: trace,
                Done DocsAuthMiddleware.challenge))) as Hcheck.
    { unfold DocsAuthMiddleware.check_credentials.
      rewrite Hheader, Hsec.
      rewrite !bool_decide_eq_true_2 by done. simpl.
      destruct e as [s d | s d | x]; simpl;
        [by rewrite app_nil_r | by rewrite app_nil_r | by destruct (He x)]. }
    destruct (auth_cache !! client_ip) as [timestamp |] eqn:Hentry;
      [| done].
    by rewrite (Hstale timestamp eq_refl).
  - intros timestamp -> ->. done.
Qed.
End Docs.

Lemma docs_address_stays_authenticated_witness :
  DocsAuthMiddleware.dispatch sample_within_hour sample_security
    sample_docs_settings
    (DocsAuthMiddleware.dispatch sample_within_hour sample_security
       sample_docs_settings ∅ 1000
       (docs_request (Some (py "admin:s3cret"))) sample_app).1
    2000 (docs_request None) sample_app
  = (<[py "10.0.0.1" := 1000]> ∅, sample_app).
Proof.
  apply (docs_address_stays_authenticated sample_within_hour sample_security
           sample_docs_settings ∅ 1000 2000
           (docs_request (Some (py "admin:s3cret"))) (docs_request None)
           (py "10.0.0.1") 97 (py "dmin:s3cret") sample_app sample_app);
    try reflexivity.
  - vm_compute.
    repeat first [apply list_elem_of_here | apply list_elem_of_further].
  - vm_compute.
    repeat first [apply list_elem_of_here | apply list_elem_of_further].
  - intros timestamp. by rewrite lookup_empty.
Defined.

Lemma docs_downstream_http_error_becomes_challenge_witness :
  DocsAuthMiddleware.dispatch sample_within_hour sample_security
    sample_docs_settings ∅ 1000
    (docs_request (Some (py "admin:s3cret")))
    ([Endpoint], Fail (RaisedAPI 404 (py "not found")))
  = (<[py "10.0.0.1" := 1000]> ∅,
     ([HTTPBasicCall; Endpoint],
      Done (DocsAuthMiddleware.challenge (R := Z)))).
Proof.
  assert (DocsAuthMiddleware.path (docs_request (Some (py "admin:s3cret")))
            ∈ DocsAuthMiddleware.docs_paths) as Hpath.
  { vm_compute.
    repeat first [apply list_elem_of_here | apply list_elem_of_further]. }
  assert (∀ x, RaisedAPI 404 (py "not found") ≠ RaisedOther x) as He
    by (intros x; discriminate).
  pose proof (docs_downstream_http_error_becomes_challenge
                sample_within_hour sample_security (R := Z)
                sample_docs_settings ∅ 1000
                (docs_request (Some (py "admin:s3cret"))) (py "10.0.0.1")
                97 (py "dmin:s3cret") [Endpoint]
                (RaisedAPI 404 (py "not found"))
                eq_refl Hpath eq_refl eq_refl eq_refl He) as [H _].
  apply H. intros timestamp. by rewrite lookup_empty.
Defined.

(** ** The stack of [create_application] *)

Section Stack.
Context {Clock : Type} (within_hour : Clock → Clock → bool).
Context (security : DocsAuthMiddleware.Request → res (list Z * list Z)).
Context {R : Type}.
Context (settings : DocsAuthMiddleware.DocsSettings).
Context (auth_cache : gmap (list Z) Clock) (current_time : Clock).
Context (TOKEN_TYPE : list Z) (redis : ActivityMiddleware.Redis).
Context (py_str : value → list Z).
Context (request : DocsAuthMiddleware.Request) (app : MW (response R)).

(** X25.  The guard of the documentation is added after the logging
    middleware and so stands outside it: with the documentation switched
    off, a request for a documentation path ends in the [HTTPException]
    with status 403 itself, which the logging middleware never sees, and
    neither Redis nor the application is called.  Inside the logging
    middleware the same refusal would have come out as a JSON response. *)
Theorem docs_refusal_escapes_logging :
  DocsAuthMiddleware.DOCS_ACCESS settings = false →
  DocsAuthMiddleware.path request ∈ DocsAuthMiddleware.docs_paths →
  Application.handle_request within_hour security settings auth_cache
    current_time TOKEN_TYPE redis py_str request app
  = ([], Fail (RaisedHTTP 403 (VStr (py "Docs disabled"))))
  ∧ LoggingMiddleware.dispatch py_str
      (DocsAuthMiddleware.dispatch within_hour security settings auth_cache
         current_time request
         (ActivityMiddleware.dispatch TOKEN_TYPE redis
            (DocsAuthMiddleware.authorization request) app)).2
    = ([], Done (JSONResponse 403 (py_str (VStr (py "Docs disabled"))))).
Proof.
  intros Haccess Hpath.
  unfold Application.handle_request, Application.create_application,
    Application.build_middleware_stack, Application.add_middleware.
  cbn [foldr]. unfold DocsAuthMiddleware.dispatch.
  rewrite !bool_decide_eq_true_2 by done. rewrite Haccess. done.
Qed.

(** X26.  For a request outside the documentation paths and without the
    bearer prefix, the guard of the documentation and the activity
    middleware do nothing: the cache of the guard stays as it was, and the
    stack does to the request what [LoggingMiddleware] alone does around
    what lies below the three middlewares; a response from below comes out
    as it is, after the calls made below and no others. *)
Theorem stack_transparent_outside_docs :
  DocsAuthMiddleware.path request ∉ DocsAuthMiddleware.docs_paths →
  startswith (TOKEN_TYPE ++ py " ")
    (default [] (DocsAuthMiddleware.authorization request)) = false →
  Application.handle_request within_hour security settings auth_cache
    current_time TOKEN_TYPE redis py_str request app
  = LoggingMiddleware.dispatch py_str app
  ∧ (∀ call_next : MW (response R),
       (DocsAuthMiddleware.dispatch within_hour security settings
          auth_cache current_time request call_next).1 = auth_cache)
  ∧ (∀ r, app.2 = Done r →
          Application.handle_request within_hour security settings
            auth_cache current_time TOKEN_TYPE redis py_str request app
          = (app.1, Done r)).
Proof.
  intros Hpath Hstart.
  assert (Application.handle_request within_hour security settings
            auth_cache current_time TOKEN_TYPE redis py_str request app
          = LoggingMiddleware.dispatch py_str app) as Hstack.
  { unfold Application.handle_request, Application.create_application,
      Application.build_middleware_stack, Application.add_middleware.
    cbn [foldr]. unfold DocsAuthMiddleware.dispatch.
    rewrite bool_decide_eq_false_2 by done. cbn [snd].
    by rewrite dispatch_without_bearer by done. }
  split; [done |]. split.
  - intros call_next. unfold DocsAuthMiddleware.dispatch.
    by rewrite bool_decide_eq_false_2 by done.
  - intros r Hr. rewrite Hstack. unfold LoggingMiddleware.dispatch.
    destruct app as [t [r' | e]]; simpl in *; [| done].
    injection Hr as ->. by rewrite app_nil_r.
Qed.
End Stack.

Lemma docs_refusal_escapes_logging_witness :
  Application.handle_request sample_within_hour sample_security
    closed_docs_settings ∅ 1000 (py "Bearer") sample_redis sample_py_str
    (docs_request None) sample_app
  = ([], Fail (RaisedHTTP 403 (VStr (py "Docs disabled")))).
Proof.
  pose proof (docs_refusal_escapes_logging sample_within_hour sample_security
                closed_docs_settings ∅ 1000 (py "Bearer") sample_redis
                sample_py_str (docs_request None) sample_app) as H.
  destruct H as [H _]; [reflexivity | | exact H].
  vm_compute.
  repeat first [apply list_elem_of_here | apply list_elem_of_further].
Defined.

Lemma stack_transparent_outside_docs_witness :
  Application.handle_request sample_within_hour sample_security
    sample_docs_settings ∅ 1000 (py "Bearer") unreachable_redis
    sample_py_str
    {| DocsAuthMiddleware.path := py "/api/v1/users";
       DocsAuthMiddleware.client_host := Some (py "10.0.0.1");
       DocsAuthMiddleware.authorization := None |}
    sample_app
  = ([Endpoint], Done (AppResponse 200)).
Proof.
  pose proof (stack_transparent_outside_docs sample_within_hour
                sample_security sample_docs_settings ∅ 1000 (py "Bearer")
                unreachable_redis sample_py_str
                {| DocsAuthMiddleware.path := py "/api/v1/users";
                   DocsAuthMiddleware.client_host := Some (py "10.0.0.1");
                   DocsAuthMiddleware.authorization := None |}
                sample_app) as H.
  destruct H as (_ & _ & H); [| reflexivity | by apply H].
  intros Hin. unfold DocsAuthMiddleware.docs_paths in Hin.
  rewrite !elem_of_cons, elem_of_nil in Hin.
  destruct Hin as [Hin | [Hin | [Hin | []]]]; vm_compute in Hin;
    discriminate Hin.
Defined.

(** ** Clearing the handlers of the root logger *)

Section ClearHandlers.
Context {Handler : Type} `{EqDecision Handler}.

Lemma list_remove_middle (pre rest : list Handler) (a : Handler) :
  a ∉ pre → SetupLogging.list_remove a (pre ++ a :: rest) = pre ++ rest.
Proof.
  induction pre as [| x pre IH]; simpl; intros Ha.
  - by destruct (decide (a = a)).
  - apply not_elem_of_cons in Ha as [Hne Ha].
    destruct (decide (x = a)); [congruence |]. by rewrite IH.
Qed.

Lemma clear_loop_invariant (fuel : nat) (pre rest : list Handler) :
  NoDup (pre ++ rest) → (length rest ≤ fuel)%nat →
  SetupLogging.clear_loop fuel (length pre) (pre ++ rest)
  = pre ++ SetupLogging.odd_indexed rest.
Proof.
  revert pre rest. induction fuel as [| fuel IH]; intros pre rest Hnd Hlen.
  - destruct rest; [done | simpl in Hlen; lia].
  - destruct rest as [| a rest]; simpl.
    + rewrite lookup_ge_None_2 by (rewrite length_app; simpl; lia). done.
    + rewrite list_lookup_middle by done.
      apply NoDup_app in Hnd as (Hpre & Hdisj & Hrest).
      assert (a ∉ pre) as Ha.
      { intros Hin. apply (Hdisj a Hin), list_elem_of_here. }
      unfold SetupLogging.removeHandler.
      rewrite decide_True
        by (rewrite elem_of_app; right; apply list_elem_of_here).
      rewrite list_remove_middle by done.
      apply NoDup_cons in Hrest as [Harest Hrest].
      destruct rest as [| b rest].
      * rewrite app_nil_r. destruct fuel; [done |]. simpl.
        by rewrite lookup_ge_None_2 by lia.
      * replace (pre ++ b :: rest) with ((pre ++ [b]) ++ rest)
          by (by rewrite <- app_assoc).
        replace (S (length pre)) with (length (pre ++ [b]))
          by (rewrite length_app; simpl; lia).
        rewrite IH.
        -- by rewrite <- app_assoc.
        -- rewrite <- app_assoc. simpl. apply NoDup_app. split; [done |].
           split; [| done].
           intros x Hx Hin. apply (Hdisj x Hx).
           by apply list_elem_of_further.
        -- simpl in Hlen. lia.
Qed.

(** X27.  The loop that is to clear the handlers of the root logger
    removes every second one only, because it removes from the list it is
    walking over: of handlers that are pairwise different, those at the odd
    positions are still there afterwards, the loop having come to the end
    of the list; so the list is cleared only if it had at most one
    handler. *)
Theorem clear_handlers_leaves_every_second (handlers : list Handler) :
  NoDup handlers →
  SetupLogging.clear_handlers handlers = SetupLogging.odd_indexed handlers
  ∧ (∀ fuel, (length handlers ≤ fuel)%nat →
             SetupLogging.clear_loop fuel 0 handlers
             = SetupLogging.odd_indexed handlers)
  ∧ (SetupLogging.clear_handlers handlers = [] ↔ (length handlers ≤ 1)%nat).
Proof.
  intros Hnd.
  assert (∀ fuel, (length handlers ≤ fuel)%nat →
                  SetupLogging.clear_loop fuel 0 handlers
                  = SetupLogging.odd_indexed handlers) as Hloop.
  { intros fuel Hfuel. by apply (clear_loop_invariant fuel [] handlers). }
  assert (SetupLogging.clear_handlers handlers
          = SetupLogging.odd_indexed handlers) as Hclear.
  { unfold SetupLogging.clear_handlers.
    destruct handlers as [| a l]; [done |]. by apply Hloop. }
  split; [done |]. split; [done |].
  rewrite Hclear. destruct handlers as [| a [| b l]]; simpl.
  - split; [lia | done].
  - split; [lia | done].
  - split; [done | lia].
Qed.
End ClearHandlers.

Lemma clear_handlers_leaves_every_second_witness :
  SetupLogging.clear_handlers [1; 2; 3; 4; 5] = [2; 4].
Proof.
  pose proof (clear_handlers_leaves_every_second [1; 2; 3; 4; 5]) as [H _].
  - repeat (apply NoDup_cons; split;
            [rewrite ?elem_of_cons, elem_of_nil; lia |]).
    apply NoDup_nil_2.
  - apply H.
Defined.

(** ** The S3 storage *)

Section Storage.
Context (self : BaseS3Storage.t) (W : S3World).

Lemma get_link_file_calls (file_key : list Z) (bucket : option (list Z))
    (h : list s3_call) :
  (BaseS3Storage.get_link_file self W file_key bucket h).1
  = h ++ [HeadObject (default (BaseS3Storage.bucket_name self) bucket)
            file_key].
Proof.
  unfold BaseS3Storage.get_link_file, BaseS3Storage.file_exists, s3_try,
    s3_bind, s3_ext, s3_ret, s3_raise.
  simpl.
  destruct (head_object W h _ file_key) as [[] | [code | m c | m c | n]];
    simpl; try done.
  by destruct (bool_decide (code = py "404")).
Qed.

(** X28.  [get_link_file] asks the store once, for the object itself.
    When the object is there and when the store answers 404 it returns the
    address [endpoint/bucket/key], the same in both cases.  Every other
    answer of the store reaches the caller as a [RuntimeError]: a
    [ClientError] with another code wrapped in the [ValueError] of
    [file_exists] first, any other exception directly; the branch
    [except ClientError] of [get_link_file] is never taken. *)
Theorem get_link_file_outcomes (file_key : list Z)
    (bucket : option (list Z)) (h : list s3_call) :
  let bucket_name := default (BaseS3Storage.bucket_name self) bucket in
  let url :=
    BaseS3Storage.endpoint self ++ py "/" ++ bucket_name ++ py "/"
    ++ file_key in
  let answer := head_object W h bucket_name file_key in
  let link := BaseS3Storage.get_link_file self W file_key bucket h in
  link.1 = h ++ [HeadObject bucket_name file_key]
  ∧ (answer = S3Ok tt → link.2 = S3Ok url)
  ∧ (answer = S3Raise (ClientError (py "404")) → link.2 = S3Ok url)
  ∧ (∀ code,
       answer = S3Raise (ClientError code) → code ≠ py "404" →
       link.2
       = S3Raise
           (S3RuntimeError "Ошибка при получении ссылки на файл"
              (S3ValueError "Ошибка при проверке наличия файла"
                 (ClientError code))))
  ∧ (∀ e,
       answer = S3Raise e → (∀ code, e ≠ ClientError code) →
       link.2
       = S3Raise (S3RuntimeError "Ошибка при получении ссылки на файл" e))
  ∧ (∀ e, link.2 = S3Raise e →
          ∃ cause,
            e = S3RuntimeError "Ошибка при получении ссылки на файл" cause).
Proof.
  intros bucket_name url answer link.
  subst bucket_name url answer link.
  unfold BaseS3Storage.get_link_file, BaseS3Storage.file_exists, s3_try,
    s3_bind, s3_ext, s3_ret, s3_raise.
  simpl.
  destruct (head_object W h _ file_key) as [[] | [code | m c | m c | n]];
    simpl.
  - split; [done |]. split; [done |]. split; [done |].
    split; [done |]. split; [done |]. by intros e [=].
  - destruct (bool_decide_reflect (code = py "404")) as [-> | Hne]; simpl.
    + split; [done |]. split; [done |]. split; [done |].
      split; [by intros code [= <-] |].
      split; [| by intros e [=]].
      intros e [= <-] He. by destruct (He (py "404")).
    + split; [done |]. split; [done |].
      split; [by intros [= ->] |].
      split; [by intros code' [= <-] |].
      split; [| by intros e [= <-]; eexists].
      intros e [= <-] He. by destruct (He code).
  - split; [done |]. split; [done |]. split; [done |].
    split; [done |]. split; [by intros e [= <-] |].
    intros e [= <-]. by eexists.
  - split; [done |]. split; [done |]. split; [done |].
    split; [done |]. split; [by intros e [= <-] |].
    intros e [= <-]. by eexists.
  - split; [done |]. split; [done |]. split; [done |].
    split; [done |]. split; [by intros e [= <-] |].
    intros e [= <-]. by eexists.
Qed.

Lemma upload_with_content_unfold (file : UploadFile) (file_key : list Z)
    (sent : list Z) (h : list s3_call) :
  let key := match file_key with
             | [] => uuid4 W h ++ py "_" ++ filename file
             | _ :: _ => file_key ++ py "/" ++ uuid4 W h ++ py "_"
                         ++ filename file
             end in
  let put := PutObject (BaseS3Storage.bucket_name self) key (Str sent)
               (content_type file) in
  let wrap (e : s3_error) :=
    match e with
    | ClientError _ => S3ValueError "Ошибка при загрузке файла" e
    | _ => S3RuntimeError "Ошибка при загрузке файла" e
    end in
  BaseS3Storage.upload_file_from_content self W file file_key
    (Some (Str sent)) None h
  = match put_object W (h ++ [Uuid4]) (BaseS3Storage.bucket_name self) key
            (Str sent) (content_type file) with
    | S3Ok _ =>
        match BaseS3Storage.get_link_file self W key
                (Some (BaseS3Storage.bucket_name self))
                ((h ++ [Uuid4]) ++ [put]) with
        | (h', S3Ok url) => (h', S3Ok url)
        | (h', S3Raise e) => (h', S3Raise (wrap e))
        end
    | S3Raise e => ((h ++ [Uuid4]) ++ [put], S3Raise (wrap e))
    end.
Proof.
  intros key put wrap.
  cbv beta iota zeta
    delta [BaseS3Storage.upload_file_from_content s3_try s3_bind s3_ret
           s3_ext s3_raise default].
  fold key. fold put.
  destruct (put_object W (h ++ [Uuid4]) (BaseS3Storage.bucket_name self) key
              (Str sent) (content_type file)) as [[] | e].
  - destruct (BaseS3Storage.get_link_file self W key
                (Some (BaseS3Storage.bucket_name self))
                ((h ++ [Uuid4]) ++ [put])) as [h' [url | e]]; [done |].
    by destruct e.
  - by destruct e.
Qed.

Lemma upload_with_content_calls (file : UploadFile) (file_key : list Z)
    (sent : list Z) (h : list s3_call) :
  ∃ new,
    (BaseS3Storage.upload_file_from_content self W file file_key
       (Some (Str sent)) None h).1 = h ++ new
    ∧ Forall (upload_call_shape (BaseS3Storage.bucket_name self) sent) new
    ∧ (∀ e code,
         (BaseS3Storage.upload_file_from_content self W file file_key
            (Some (Str sent)) None h).2 = S3Raise e →
         e ≠ ClientError code).
Proof.
  rewrite upload_with_content_unfold. cbv zeta.
  set (key := match file_key with
              | [] => uuid4 W h ++ py "_" ++ filename file
              | _ :: _ => file_key ++ py "/" ++ uuid4 W h ++ py "_"
                          ++ filename file
              end).
  set (put := PutObject (BaseS3Storage.bucket_name self) key (Str sent)
                (content_type file)).
  assert (upload_call_shape (BaseS3Storage.bucket_name self) sent put)
    as Hput by done.
  destruct (put_object W (h ++ [Uuid4]) (BaseS3Storage.bucket_name self) key
              (Str sent) (content_type file)) as [[] | e].
  - pose proof (get_link_file_calls key
                  (Some (BaseS3Storage.bucket_name self))
                  ((h ++ [Uuid4]) ++ [put])) as Hcalls.
    destruct (BaseS3Storage.get_link_file self W key
                (Some (BaseS3Storage.bucket_name self))
                ((h ++ [Uuid4]) ++ [put])) as [h' r].
    simpl in Hcalls. subst h'.
    exists [Uuid4; put; HeadObject (BaseS3Storage.bucket_name self) key].
    destruct r as [url | e]; simpl.
    + split; [by rewrite <- !app_assoc |].
      split; [by repeat constructor |]. by intros e' code [=].
    + split; [by rewrite <- !app_assoc |].
      split; [by repeat constructor |].
      intros e' code [= <-]. by destruct e.
  - exists [Uuid4; put]. simpl.
    split; [by rewrite <- !app_assoc |].
    split; [by repeat constructor |].
    intros e' code [= <-]. by destruct e.
Qed.

Lemma upload_each_cons (file : UploadFile) (file_key : list Z)
    (items : list (UploadFile * list Z)) (sent : list Z)
    (uploaded_files : list (list Z)) (h : list s3_call) :
  BaseS3Storage.upload_each self W ((file, file_key) :: items) sent
    uploaded_files h
  = match BaseS3Storage.upload_file_from_content self W file file_key
            (Some (Str sent)) None h with
    | (h', S3Ok _) =>
        BaseS3Storage.upload_each self W items sent
          (uploaded_files ++ [file_key]) h'
    | (h', S3Raise e) => (h', S3Raise e)
    end.
Proof. reflexivity. Qed.

Lemma upload_each_calls (items : list (UploadFile * list Z))
    (sent : list Z) (uploaded_files : list (list Z)) (h : list s3_call) :
  ∃ new,
    (BaseS3Storage.upload_each self W items sent uploaded_files h).1
    = h ++ new
    ∧ Forall (upload_call_shape (BaseS3Storage.bucket_name self) sent) new
    ∧ (∀ keys,
         (BaseS3Storage.upload_each self W items sent uploaded_files h).2
         = S3Ok keys →
         keys = uploaded_files ++ items.*2)
    ∧ (∀ e code,
         (BaseS3Storage.upload_each self W items sent uploaded_files h).2
         = S3Raise e →
         e ≠ ClientError code).
Proof.
  revert uploaded_files h.
  induction items as [| [file file_key] items IH]; intros uploaded_files h.
  - exists []. simpl. rewrite !app_nil_r.
    split; [done |]. split; [done |]. split; [by intros keys [= <-] | done].
  - rewrite upload_each_cons.
    destruct (upload_with_content_calls file file_key sent h)
      as (new1 & Hcalls1 & Hshape1 & Herr1).
    destruct (BaseS3Storage.upload_file_from_content self W file file_key
                (Some (Str sent)) None h) as [h1 [url | e]].
    + simpl in Hcalls1. subst h1.
      destruct (IH (uploaded_files ++ [file_key]) (h ++ new1))
        as (new2 & Hcalls2 & Hshape2 & Hkeys2 & Herr2).
      exists (new1 ++ new2). split; [by rewrite Hcalls2, app_assoc |].
      split; [by apply Forall_app |]. split; [| done].
      intros keys Hkeys. rewrite (Hkeys2 keys Hkeys).
      by rewrite <- app_assoc.
    + simpl in Hcalls1. subst h1. exists new1. simpl.
      split; [done |]. split; [done |]. split; [done |].
      intros e' code [= <-]. by apply Herr1.
Qed.

Lemma zip_keys (files : list UploadFile) (file_keys : list (list Z)) :
  (zip files file_keys).*2 = take (length files) file_keys.
Proof.
  revert file_keys. induction files as [| f files IH]; intros [| k keys];
    simpl; try done.
  by rewrite IH.
Qed.

(** X29.  [upload_multiple_files_from_content] hands the bucket name to
    [upload_file_from_content] in the place of the file content: whatever
    the files hold, no file is read, every object is put into the bucket
    of the configuration, also when another bucket was asked for, and the
    body of every object is the name of the bucket as a string. *)
Theorem upload_multiple_sends_bucket_name_as_body (files : list UploadFile)
    (file_keys : list (list Z)) (bucket : option (list Z))
    (h : list s3_call) :
  ∃ new,
    (BaseS3Storage.upload_multiple_files_from_content self W files file_keys
       bucket h).1 = h ++ new
    ∧ Forall
        (upload_call_shape (BaseS3Storage.bucket_name self)
           (default (BaseS3Storage.bucket_name self) bucket)) new.
Proof.
  unfold BaseS3Storage.upload_multiple_files_from_content, s3_try.
  destruct (upload_each_calls (zip files file_keys)
              (default (BaseS3Storage.bucket_name self) bucket) [] h)
    as (new & Hcalls & Hshape & _ & _).
  destruct (BaseS3Storage.upload_each self W (zip files file_keys)
              (default (BaseS3Storage.bucket_name self) bucket) [] h)
    as [h' [keys | e]]; simpl in Hcalls; subst h'; exists new.
  - done.
  - by destruct e.
Qed.

(** X30.  When it returns, [upload_multiple_files_from_content] returns
    the keys it was given, cut to the number of files, not the keys under
    which the objects were stored; when it fails, it fails with a
    [RuntimeError], the branch for [ClientError] being out of reach behind
    the handlers of [upload_file_from_content]. *)
Theorem upload_multiple_outcomes (files : list UploadFile)
    (file_keys : list (list Z)) (bucket : option (list Z))
    (h : list s3_call) :
  (∀ keys,
     (BaseS3Storage.upload_multiple_files_from_content self W files
        file_keys bucket h).2 = S3Ok keys →
     keys = take (length files) file_keys)
  ∧ (∀ e,
       (BaseS3Storage.upload_multiple_files_from_content self W files
          file_keys bucket h).2 = S3Raise e →
       ∃ cause, e = S3RuntimeError "Ошибка при загрузке файлов" cause).
Proof.
  unfold BaseS3Storage.upload_multiple_files_from_content, s3_try.
  destruct (upload_each_calls (zip files file_keys)
              (default (BaseS3Storage.bucket_name self) bucket) [] h)
    as (new & _ & _ & Hkeys & Herr).
  destruct (BaseS3Storage.upload_each self W (zip files file_keys)
              (default (BaseS3Storage.bucket_name self) bucket) [] h)
    as [h' [keys | e]]; simpl.
  - split; [| done]. intros keys' [= <-].
    rewrite (Hkeys keys eq_refl). simpl. apply zip_keys.
  - destruct e as [code | m c | m c | n]; simpl;
      [by destruct (Herr _ code eq_refl) | ..];
      (split; [done |]); intros e' [= <-]; by eexists.
Qed.
End Storage.

(** An object that was never put: the store answers 404 and the address
    is returned all the same. *)
Lemma get_link_file_outcomes_witness :
  (BaseS3Storage.get_link_file sample_storage sample_s3_world
     (py "avatars/ann.png") None []).2
  = S3Ok (py "https://s3.example.org/media/avatars/ann.png").
Proof.
  pose proof (get_link_file_outcomes sample_storage sample_s3_world
                (py "avatars/ann.png") None []) as (_ & _ & H & _).
  apply H. reflexivity.
Defined.

Lemma upload_multiple_outcomes_witness :
  [py "a"; py "b"]
  = take (length [{| filename := py "x.png"; content_type := py "image/png";
                     content := py "PNG" |};
                  {| filename := py "y.png"; content_type := py "image/png";
                     content := py "PNG" |}])
      [py "a"; py "b"; py "c"].
Proof.
  pose proof (upload_multiple_outcomes sample_storage sample_s3_world
                [{| filename := py "x.png"; content_type := py "image/png";
                    content := py "PNG" |};
                 {| filename := py "y.png"; content_type := py "image/png";
                    content := py "PNG" |}]
                [py "a"; py "b"; py "c"] (Some (py "other")) []) as [H _].
  apply H. vm_compute. reflexivity.
Defined.
